(** * ArtifactCopier: the firmware copy scripts

    A shallow embedding of the two variants of [copy_firmware_files]:

      - [Standalone]: scripts/copy_firmware.py, run by hand, ends in [sys.exit];
      - [PostBuild]:  firmware/copy_firmware.py, a PlatformIO (SCons) post action.

    Both scripts work on the file system through [pathlib] and [shutil] and
    write their report with [print].  The embedding threads a [world] (file
    system and standard output) through a state-and-exception monad [M].

    Scope of the file-system model.  A path is the list of its components,
    read from the root; there are no symbolic or hard links, no special
    files, and directories can always be searched.  A node carries the owner's
    read and write permission bits, the process runs as the unprivileged owner
    of every node, and the umask leaves the owner's bits alone.  A write either
    happens in full or fails when the file is opened (no partial writes). *)

From Stdlib Require Import ZArith String Ascii List Lia.
From Stdlib.Strings Require Import Byte.
From stdpp Require Import base option gmap strings list fin_maps.

Local Open Scope string_scope.
Local Open Scope list_scope.
Local Open Scope Z_scope.

(** ** Paths *)

Abbreviation path := (list string).

(** [PurePath.parent]: the path without its last component; the root is its
    own parent. *)
Definition parent (p : path) : path := removelast p.

(** [PurePath.name]: the last component, or the empty string for the root. *)
Definition name (p : path) : string := List.last p EmptyString.

(** Components of a path string: the pieces between slashes. *)
Fixpoint split_slash (cur s : string) : list string :=
  match s with
  | EmptyString => [cur]
  | String c s' =>
      if Ascii.eqb c "/"%char then cur :: split_slash EmptyString s'
      else split_slash (cur +:+ String c EmptyString) s'
  end.

Definition is_part (c : string) : bool :=
  negb (String.eqb c EmptyString) && negb (String.eqb c ".").

(** [Path(s)]: pathlib drops empty components and single dots.  Every string
    is read from the root, as for a process whose working directory is [/];
    [..] is kept as a component, as pathlib keeps it, and names no node. *)
Definition Path (s : string) : path := List.filter is_part (split_slash EmptyString s).

Definition is_anchored (s : string) : bool :=
  match s with
  | String c _ => Ascii.eqb c "/"%char
  | EmptyString => false
  end.

(** [p / s]: an anchored segment replaces the path, any other is appended. *)
Definition truediv (p : path) (s : string) : path :=
  if is_anchored s then Path s else p ++ Path s.

Declare Scope path_scope.
Delimit Scope path_scope with path.
Notation "p / s" := (truediv p s) : path_scope.

(** [os.path.join dst (os.path.basename src)] as [shutil.copy2] uses it: an
    empty base name leaves the directory itself. *)
Definition os_path_join (d : path) (base : string) : path :=
  if String.eqb base EmptyString then d else d ++ [base].

(** ** File-system nodes *)

Record perm := Perm { can_read : bool; can_write : bool }.

Inductive node :=
| File (data : list byte) (mode : perm)
| Dir (mode : perm).

(** Mode of a node made by [open(.., 'wb')] or [mkdir] under the usual umask. *)
Definition fresh_mode : perm := Perm true true.

(** [st_size] of a directory depends on the file system; one block is used
    here, and nothing below depends on the value. *)
Definition dir_st_size : Z := 4096.

Definition st_size (n : node) : Z :=
  match n with
  | File data _ => Z.of_nat (length data)
  | Dir _ => dir_st_size
  end.

Definition st_mode (n : node) : perm :=
  match n with
  | File _ m => m
  | Dir m => m
  end.

(** ** Exceptions *)

Inductive exn :=
| FileNotFoundError (p : path)
| FileExistsError (p : path)
| NotADirectoryError (p : path)
| IsADirectoryError (p : path)
| PermissionError (p : path)
| SameFileError (src dst : path)
| KeyError (key : string)
| SystemExit (code : Z).

(** [SystemExit] derives from [BaseException] only; [except Exception] lets
    it through. *)
Definition is_Exception (e : exn) : bool :=
  match e with
  | SystemExit _ => false
  | _ => true
  end.

Definition is_OSError (e : exn) : bool :=
  match e with
  | KeyError _ | SystemExit _ => false
  | _ => true
  end.

(** pathlib's [_ignore_error]: ENOENT and ENOTDIR mean "not there". *)
Definition ignore_error (e : exn) : bool :=
  match e with
  | FileNotFoundError _ | NotADirectoryError _ => true
  | _ => false
  end.

(** ** Report lines *)

Inductive line :=
| Rule                                            (* "=" * 50 *)
| CopyingLine                                     (* Copying firmware files ... *)
| CopiedLine (file_name src_name : string) (file_size : Z)
| NotFoundLine (file_name src_name : string)
| ErrorLine (file_name : string) (e : exn)
| SuccessLine (success_count : Z)
| ReadyLine
| NoFilesLine.

(** ** The world and the monad *)

Record world := World { fs : gmap path node; stdout : list line }.

Inductive result (A : Type) :=
| Ok (a : A)
| Raise (e : exn).
Arguments Ok {A} a.
Arguments Raise {A} e.

Definition M (A : Type) : Type := world → world * result A.

#[export] Instance M_ret : MRet M := λ A a w, (w, Ok a).

#[export] Instance M_bind : MBind M := λ A B f m w,
  match m w with
  | (w', Ok a) => f a w'
  | (w', Raise e) => (w', Raise e)
  end.

Definition raise {A} (e : exn) : M A := λ w, (w, Raise e).

(** [try: body except: handler]; the handler re-raises what it does not want. *)
Definition catch {A} (body : M A) (handler : exn → M A) : M A := λ w,
  match body w with
  | (w', Ok a) => (w', Ok a)
  | (w', Raise e) => handler e w'
  end.

(** [try: body except Exception as e: handler e]. *)
Definition try_except_Exception {A} (body : M A) (handler : exn → M A) : M A :=
  catch body (λ e, if is_Exception e then handler e else raise e).

Definition get_fs : M (gmap path node) := λ w, (w, Ok (fs w)).

Definition put_fs (m : gmap path node) : M unit := λ w, (World m (stdout w), Ok tt).

Definition print (l : line) : M unit := λ w, (World (fs w) (stdout w ++ [l]), Ok tt).

(** [for x in xs: acc = body x acc], the loop-carried variable made explicit. *)
Fixpoint for_each {A S} (xs : list A) (body : A → S → M S) (acc : S) : M S :=
  match xs with
  | [] => mret acc
  | x :: xs' => acc' ← body x acc; for_each xs' body acc'
  end.

(** ** The operating system and the Python library *)

Definition os_stat (p : path) : M node :=
  m ← get_fs;
  match m !! p with
  | Some n => mret n
  | None => raise (FileNotFoundError p)
  end.

(** [Path.exists]: [stat], with the "not there" errors turned into [False]. *)
Definition Path_exists (p : path) : M bool :=
  catch (os_stat p;; mret true)
        (λ e, if ignore_error e then mret false else raise e).

Definition is_dir_node (n : node) : bool :=
  match n with
  | Dir _ => true
  | File _ _ => false
  end.

(** [Path.is_dir] and [os.path.isdir]: any [OSError] of [stat] means [False]. *)
Definition os_path_isdir (p : path) : M bool :=
  catch (n ← os_stat p; mret (is_dir_node n))
        (λ e, if is_OSError e then mret false else raise e).

(** [os.mkdir]: the name must be free and the parent a writable directory.
    In a tree an existing name has an existing parent directory, so the order
    of the two tests cannot be observed. *)
Definition os_mkdir (p : path) : M unit :=
  m ← get_fs;
  match m !! p with
  | Some _ => raise (FileExistsError p)
  | None =>
      match m !! parent p with
      | None => raise (FileNotFoundError p)
      | Some (File _ _) => raise (NotADirectoryError p)
      | Some (Dir pm) =>
          if can_write pm then put_fs (<[p := Dir fresh_mode]> m)
          else raise (PermissionError p)
      end
  end.

(** [Path.mkdir(parents=False, exist_ok=..)]. *)
Definition Path_mkdir (p : path) (exist_ok : bool) : M unit :=
  catch (os_mkdir p)
        (λ e, match e with
              | FileNotFoundError _ => raise e
              | _ =>
                  if is_OSError e then
                    d ← os_path_isdir p;
                    if negb exist_ok || negb d then raise e else mret tt
                  else raise e
              end).

(** [open(p, 'rb').read()]. *)
Definition read_file (p : path) : M (list byte) :=
  m ← get_fs;
  match m !! p with
  | None => raise (FileNotFoundError p)
  | Some (Dir _) => raise (IsADirectoryError p)
  | Some (File data fm) =>
      if can_read fm then mret data else raise (PermissionError p)
  end.

(** [open(p, 'wb').write(data)]: truncates an existing file, keeps its mode;
    creates a missing one in a writable directory. *)
Definition write_file (p : path) (data : list byte) : M unit :=
  m ← get_fs;
  match m !! p with
  | Some (Dir _) => raise (IsADirectoryError p)
  | Some (File _ fm) =>
      if can_write fm then put_fs (<[p := File data fm]> m)
      else raise (PermissionError p)
  | None =>
      match m !! parent p with
      | None => raise (FileNotFoundError p)
      | Some (File _ _) => raise (NotADirectoryError p)
      | Some (Dir pm) =>
          if can_write pm then put_fs (<[p := File data fresh_mode]> m)
          else raise (PermissionError p)
      end
  end.

Definition os_chmod (p : path) (mode : perm) : M unit :=
  m ← get_fs;
  match m !! p with
  | None => raise (FileNotFoundError p)
  | Some (File data _) => put_fs (<[p := File data mode]> m)
  | Some (Dir _) => put_fs (<[p := Dir mode]> m)
  end.

(** [shutil.copyfile]: refuses to copy a file onto itself, opens the source
    before the destination. *)
Definition shutil_copyfile (src dst : path) : M unit :=
  (if bool_decide (src = dst) then raise (SameFileError src dst) else mret tt);;
  data ← read_file src;
  write_file dst data.

(** [shutil.copystat]: of the metadata only the permission bits are modelled. *)
Definition shutil_copystat (src dst : path) : M unit :=
  n ← os_stat src;
  os_chmod dst (st_mode n).

(** [shutil.copy2]: a directory as destination means "into that directory". *)
Definition shutil_copy2 (src dst : path) : M path :=
  d ← os_path_isdir dst;
  let dst : path := if d : bool then os_path_join dst (name src) else dst in
  shutil_copyfile src dst;;
  shutil_copystat src dst;;
  mret dst.

(** ** ArtifactEntry: one element of [files_to_copy] *)

Module Entry.
Record t := Make { source : path; dest : path; name : string }.
End Entry.

Abbreviation file_info := Entry.t.

(** ** Python values that cross a function boundary *)

Inductive value :=
| PyNone
| PyInt (z : Z).

(** [env[key]] on the SCons construction environment. *)
Definition subscript (env : gmap string string) (key : string) : M string := λ w,
  match env !! key with
  | Some v => (w, Ok v)
  | None => (w, Raise (KeyError key))
  end.

(** [sys.exit(code)]. *)
Definition sys_exit (code : Z) : M unit := raise (SystemExit code).

(** What the interpreter makes of a finished script: the code of a
    [SystemExit], 1 for any other uncaught exception, 0 at the end of the
    script. *)
Definition exit_status (r : result unit) : Z :=
  match r with
  | Ok _ => 0
  | Raise (SystemExit code) => code
  | Raise _ => 1
  end.

(** ** scripts/copy_firmware.py *)

Module Standalone.

Definition script_dir (__file__ : string) : path := parent (Path __file__).

Definition project_dir (__file__ : string) : path := parent (script_dir __file__).

Definition build_dir (__file__ : string) : path :=
  (project_dir __file__ / ".pio" / "build" / "esp32doit-devkit-v1")%path.

Definition firmware_dir (__file__ : string) : path :=
  (project_dir __file__ / "firmware")%path.

Definition files_to_copy (__file__ : string) : list file_info :=
  [ {| Entry.source := (build_dir __file__ / "firmware.bin")%path;
       Entry.dest := (firmware_dir __file__ / "firmware.bin")%path;
       Entry.name := "Main firmware" |};
    {| Entry.source := (build_dir __file__ / "spiffs.bin")%path;
       Entry.dest := (firmware_dir __file__ / "spiffs.bin")%path;
       Entry.name := "SPIFFS filesystem" |} ].

(** The body of [for file_info in files_to_copy], lines 45 to 59. *)
Definition loop_body (file_info : file_info) (success_count : Z) : M Z :=
  let source_file := Entry.source file_info in
  let dest_file := Entry.dest file_info in
  let file_name := Entry.name file_info in
  try_except_Exception
    (found ← Path_exists source_file;
     if found : bool then
       shutil_copy2 source_file dest_file;;
       st ← os_stat dest_file;
       let file_size := st_size st in
       print (CopiedLine file_name (name source_file) file_size);;
       mret (success_count + 1)
     else
       print (NotFoundLine file_name (name source_file));;
       mret success_count)
    (λ e, print (ErrorLine file_name e);; mret success_count).

Definition copy_firmware_files (__file__ : string) : M value :=
  print Rule;;
  print CopyingLine;;
  Path_mkdir (firmware_dir __file__) true;;
  success_count ← for_each (files_to_copy __file__) loop_body 0;
  (if success_count >? 0 then
     print (SuccessLine success_count);;
     print ReadyLine
   else
     print NoFilesLine);;
  print Rule;;
  mret (PyInt success_count).

(** [success_count > 0] on what the call returned. *)
Definition positive (v : value) : bool :=
  match v with
  | PyInt z => z >? 0
  | PyNone => false
  end.

(** The [if __name__ == "__main__"] block. *)
Definition main (__file__ : string) : M unit :=
  success_count ← copy_firmware_files __file__;
  sys_exit (if positive success_count then 0 else 1).

End Standalone.

(** ** firmware/copy_firmware.py *)

Module PostBuild.

Definition files_to_copy (build_dir firmware_dir : path) : list file_info :=
  [ {| Entry.source := (build_dir / "firmware.bin")%path;
       Entry.dest := (firmware_dir / "firmware.bin")%path;
       Entry.name := "Main firmware" |};
    {| Entry.source := (build_dir / "spiffs.bin")%path;
       Entry.dest := (firmware_dir / "spiffs.bin")%path;
       Entry.name := "SPIFFS filesystem" |} ].

(** The body of [for file_info in files_to_copy], lines 43 to 57. *)
Definition loop_body (file_info : file_info) (success_count : Z) : M Z :=
  let source_file := Entry.source file_info in
  let dest_file := Entry.dest file_info in
  let file_name := Entry.name file_info in
  try_except_Exception
    (found ← Path_exists source_file;
     if found : bool then
       shutil_copy2 source_file dest_file;;
       st ← os_stat dest_file;
       let file_size := st_size st in
       print (CopiedLine file_name (name source_file) file_size);;
       mret (success_count + 1)
     else
       print (NotFoundLine file_name (name source_file));;
       mret success_count)
    (λ e, print (ErrorLine file_name e);; mret success_count).

(** [source] and [target] are the SCons nodes of the build step; the action
    does not look at them.  The function has no [return]: it yields [None],
    which SCons reads as a successful action. *)
Definition copy_firmware_files (source target : list path)
    (env : gmap string string) : M value :=
  print Rule;;
  print CopyingLine;;
  PROJECT_DIR ← subscript env "PROJECT_DIR";
  let project_dir := Path PROJECT_DIR in
  PIOENV ← subscript env "PIOENV";
  let build_dir := (project_dir / ".pio" / "build" / PIOENV)%path in
  let firmware_dir := (project_dir / "firmware")%path in
  Path_mkdir firmware_dir true;;
  success_count ← for_each (files_to_copy build_dir firmware_dir) loop_body 0;
  (if success_count >? 0 then
     print (SuccessLine success_count);;
     print ReadyLine
   else
     print NoFilesLine);;
  print Rule;;
  mret PyNone.

End PostBuild.

(** * Reasoning about the embedding *)

(** ** The library calls as functions of the file system

    Each definition below says, without the monad, what one call does to the
    file system; the lemmas that follow tie it to the call. *)

Definition exists_in (m : gmap path node) (p : path) : bool :=
  match m !! p with
  | Some _ => true
  | None => false
  end.

Definition isdir_in (m : gmap path node) (p : path) : bool :=
  match m !! p with
  | Some (Dir _) => true
  | _ => false
  end.

(** The outcome of [Path.mkdir(exist_ok=True)]: the new file system, or the
    exception. *)
Definition mkdir_outcome (m : gmap path node) (p : path) : result (gmap path node) :=
  match m !! p with
  | Some (Dir _) => Ok m
  | Some (File _ _) => Raise (FileExistsError p)
  | None =>
      match m !! parent p with
      | None => Raise (FileNotFoundError p)
      | Some (File _ _) => Raise (NotADirectoryError p)
      | Some (Dir pm) =>
          if can_write pm then Ok (<[p := Dir fresh_mode]> m)
          else Raise (PermissionError p)
      end
  end.

(** Where [shutil.copy2 src dst] writes. *)
Definition copy2_target (m : gmap path node) (src dst : path) : path :=
  if isdir_in m dst then os_path_join dst (name src) else dst.

(** May [open(t, 'wb')] go ahead? *)
Definition open_wb (m : gmap path node) (t : path) : result unit :=
  match m !! t with
  | Some (Dir _) => Raise (IsADirectoryError t)
  | Some (File _ fm) => if can_write fm then Ok tt else Raise (PermissionError t)
  | None =>
      match m !! parent t with
      | None => Raise (FileNotFoundError t)
      | Some (File _ _) => Raise (NotADirectoryError t)
      | Some (Dir pm) => if can_write pm then Ok tt else Raise (PermissionError t)
      end
  end.

(** The outcome of [shutil.copy2 src dst]: the node written at the target, or
    the exception. *)
Definition copy2_outcome (m : gmap path node) (src dst : path) : result node :=
  let t := copy2_target m src dst in
  if bool_decide (src = t) then Raise (SameFileError src t)
  else
    match m !! src with
    | None => Raise (FileNotFoundError src)
    | Some (Dir _) => Raise (IsADirectoryError src)
    | Some (File data fm) =>
        if can_read fm then
          match open_wb m t with
          | Ok _ => Ok (File data fm)
          | Raise e => Raise e
          end
        else Raise (PermissionError src)
    end.

(** ** One turn of the loop as a function of the file system *)

Inductive outcome :=
| Copied (file_size : Z)
| Skipped
| Errored (e : exn).

Definition step_outcome (m : gmap path node) (a : file_info) : outcome :=
  if exists_in m (Entry.source a) then
    match copy2_outcome m (Entry.source a) (Entry.dest a) with
    | Ok n =>
        let t := copy2_target m (Entry.source a) (Entry.dest a) in
        Copied (if bool_decide (t = Entry.dest a) then st_size n else dir_st_size)
    | Raise e => Errored e
    end
  else Skipped.

Definition step_fs (m : gmap path node) (a : file_info) : gmap path node :=
  if exists_in m (Entry.source a) then
    match copy2_outcome m (Entry.source a) (Entry.dest a) with
    | Ok n => <[copy2_target m (Entry.source a) (Entry.dest a) := n]> m
    | Raise _ => m
    end
  else m.

Definition report (a : file_info) (o : outcome) : line :=
  match o with
  | Copied file_size => CopiedLine (Entry.name a) (name (Entry.source a)) file_size
  | Skipped => NotFoundLine (Entry.name a) (name (Entry.source a))
  | Errored e => ErrorLine (Entry.name a) e
  end.

Definition gain (o : outcome) : Z :=
  match o with
  | Copied _ => 1
  | _ => 0
  end.

(** The file systems, report lines and counts that the loop goes through. *)
Fixpoint loop_fs (m : gmap path node) (l : list file_info) : gmap path node :=
  match l with
  | [] => m
  | a :: l' => loop_fs (step_fs m a) l'
  end.

Fixpoint loop_lines (m : gmap path node) (l : list file_info) : list line :=
  match l with
  | [] => []
  | a :: l' => report a (step_outcome m a) :: loop_lines (step_fs m a) l'
  end.

Fixpoint loop_gain (m : gmap path node) (l : list file_info) : Z :=
  match l with
  | [] => 0
  | a :: l' => gain (step_outcome m a) + loop_gain (step_fs m a) l'
  end.

(** The lines that close the report. *)
Definition summary (success_count : Z) : list line :=
  (if success_count >? 0 then [SuccessLine success_count; ReadyLine]
   else [NoFilesLine]) ++ [Rule].

(** Number of "copied" lines in a report. *)
Definition is_copied_line (l : line) : bool :=
  match l with
  | CopiedLine _ _ _ => true
  | _ => false
  end.

Definition copied_lines (out : list line) : Z :=
  Z.of_nat (length (List.filter is_copied_line out)).

(** ** The two artifacts of the standalone script *)

Definition firmware_bin (__file__ : string) : file_info :=
  {| Entry.source := Standalone.project_dir __file__
                     ++ [".pio"; "build"; "esp32doit-devkit-v1"; "firmware.bin"];
     Entry.dest := Standalone.project_dir __file__ ++ ["firmware"; "firmware.bin"];
     Entry.name := "Main firmware" |}.

Definition spiffs_bin (__file__ : string) : file_info :=
  {| Entry.source := Standalone.project_dir __file__
                     ++ [".pio"; "build"; "esp32doit-devkit-v1"; "spiffs.bin"];
     Entry.dest := Standalone.project_dir __file__ ++ ["firmware"; "spiffs.bin"];
     Entry.name := "SPIFFS filesystem" |}.

(** A source that is there as a regular file the owner may read. *)
Definition readable_file (m : gmap path node) (p : path) : bool :=
  match m !! p with
  | Some (File _ fm) => can_read fm
  | _ => false
  end.

(** The destination directory is there, or its parent is a directory that
    lets it be made. *)
Definition dir_ready (m : gmap path node) (dir : path) : bool :=
  match m !! dir with
  | Some (Dir _) => true
  | Some (File _ _) => false
  | None =>
      match m !! parent dir with
      | Some (Dir pm) => can_write pm
      | _ => false
      end
  end.

(** A destination path that can be written: a regular file the owner may
    write, or nothing yet in a directory that is writable or still to be made. *)
Definition dest_ready (m : gmap path node) (dir dst : path) : bool :=
  match m !! dst with
  | Some (File _ fm) => can_write fm
  | Some (Dir _) => false
  | None =>
      match m !! dir with
      | Some (Dir dm) => can_write dm
      | Some (File _ _) => false
      | None => true
      end
  end.

(** The bytes of a regular file. *)
Definition contents (m : gmap path node) (p : path) : option (list byte) :=
  match m !! p with
  | Some (File data _) => Some data
  | _ => None
  end.

(** ** Properties of a loop body, stated once for both scripts *)

(** The count after a prefix of the artifacts lies between the count at the
    start and the count after the whole list, and each further artifact adds
    at most one. *)
Definition count_invariant (body : file_info → Z → M Z) : Prop :=
  ∀ (l1 l2 : list file_info) (c : Z) (w : world),
    ∃ w1 c1 w2 c2,
      for_each l1 body c w = (w1, Ok c1) ∧
      for_each (l1 ++ l2) body c w = (w2, Ok c2) ∧
      c ≤ c1 ∧ c1 ≤ c2 ∧ c2 ≤ c1 + Z.of_nat (length l2).

(** The loop always runs to its end. *)
Definition never_raises (body : file_info → Z → M Z) : Prop :=
  ∀ (l : list file_info) (c : Z) (w : world),
    ∃ w' c', for_each l body c w = (w', Ok c').

(** A copy that raises [e] leaves one error line, the count and the file
    system as they were, and the remaining artifacts their turn. *)
Definition records_failure (body : file_info → Z → M Z)
    (a : file_info) (l : list file_info) (c : Z) (w : world) (e : exn) : Prop :=
  let w_err := World (fs w) (stdout w ++ [ErrorLine (Entry.name a) e]) in
  body a c w = (w_err, Ok c) ∧
  for_each (a :: l) body c w = for_each l body c w_err.

(** The lines a run added to the report. *)
Definition new_lines (w w' : world) : list line :=
  drop (length (stdout w)) (stdout w').

(** ** Sample worlds *)

Definition rw : perm := Perm true true.
Definition ro : perm := Perm true false.

Definition sample_file : string := "/home/proj/scripts/copy_firmware.py".
Definition sample_project : path := ["home"; "proj"].
Definition sample_build : path := sample_project ++ [".pio"; "build"; "esp32doit-devkit-v1"].

Definition sample_env : gmap string string :=
  {[ "PROJECT_DIR" := "/home/proj"; "PIOENV" := "esp32doit-devkit-v1" ]}.

(** A project tree without build output and without [firmware/]. *)
Definition bare_tree : gmap path node :=
  list_to_map
    [ ([], Dir rw); (["home"], Dir rw); (sample_project, Dir rw);
      (sample_project ++ ["scripts"], Dir rw);
      (sample_project ++ ["scripts"; "copy_firmware.py"], File [] rw) ].

Definition build_tree : gmap path node :=
  <[sample_build := Dir rw]>
    (<[sample_project ++ [".pio"; "build"] := Dir rw]>
       (<[sample_project ++ [".pio"] := Dir rw]> bare_tree)).

Definition firmware_image : list byte := [xe9; x06; x02; x20].
Definition spiffs_image : list byte := [xff; xff; x01].

(** Both artifacts built, nothing distributed yet. *)
Definition built_tree : gmap path node :=
  <[sample_build ++ ["spiffs.bin"] := File spiffs_image rw]>
    (<[sample_build ++ ["firmware.bin"] := File firmware_image rw]> build_tree).

(** The firmware image cannot be read; the file-system image can. *)
Definition unreadable_tree : gmap path node :=
  <[sample_build ++ ["firmware.bin"] := File firmware_image (Perm false true)]> built_tree.

(** ** What one turn of the loop looks at *)

(** The paths whose nodes decide what the loop does with an artifact: the
    source, the destination, the place inside the destination should it be a
    directory, and their parents. *)
Definition footprint (a : file_info) : list path :=
  let j := os_path_join (Entry.dest a) (name (Entry.source a)) in
  [Entry.source a; Entry.dest a; j; parent (Entry.dest a); parent j].

(** Two file systems that hold the same nodes at the given paths. *)
Definition agree_on (ps : list path) (m m' : gmap path node) : Prop :=
  Forall (λ p, m !! p = m' !! p) ps.

(** Both artifacts built, but [firmware] is a regular file. *)
Definition blocked_tree : gmap path node :=
  <[sample_project ++ ["firmware"] := File [] rw]> built_tree.

(** Both artifacts built and distributed once; the copy of the firmware image
    is read-only, the image itself has been rebuilt since. *)
Definition locked_tree : gmap path node :=
  <[sample_project ++ ["firmware"; "spiffs.bin"] := File spiffs_image rw]>
    (<[sample_project ++ ["firmware"; "firmware.bin"] := File [x00] ro]>
       (<[sample_project ++ ["firmware"] := Dir rw]> built_tree)).

(** Only the firmware image built; [firmware/] still holds the file-system
    image of an earlier build. *)
Definition stale_tree : gmap path node :=
  <[sample_project ++ ["firmware"; "spiffs.bin"] := File spiffs_image rw]>
    (<[sample_project ++ ["firmware"] := Dir rw]>
       (<[sample_build ++ ["firmware.bin"] := File firmware_image rw]> build_tree)).

(** Only the firmware image built, nothing distributed yet. *)
Definition half_built_tree : gmap path node :=
  <[sample_build ++ ["firmware.bin"] := File firmware_image rw]> build_tree.

(** Nothing but the root: the project directory is not there. *)
Definition root_only : gmap path node := {[ [] := Dir rw ]}.

(** Both artifacts built, both read-only. *)
Definition read_only_tree : gmap path node :=
  <[sample_build ++ ["spiffs.bin"] := File spiffs_image ro]>
    (<[sample_build ++ ["firmware.bin"] := File firmware_image ro]> build_tree).

(** ** The artifacts of either script, by directory *)

(** The two entries of [files_to_copy] for a build directory and a
    destination directory. *)
Definition main_firmware (build_dir firmware_dir : path) : file_info :=
  {| Entry.source := build_dir ++ ["firmware.bin"];
     Entry.dest := firmware_dir ++ ["firmware.bin"];
     Entry.name := "Main firmware" |}.

Definition spiffs_filesystem (build_dir firmware_dir : path) : file_info :=
  {| Entry.source := build_dir ++ ["spiffs.bin"];
     Entry.dest := firmware_dir ++ ["spiffs.bin"];
     Entry.name := "SPIFFS filesystem" |}.

(** The directories the post-build action computes from its environment. *)
Definition post_build_dir (PROJECT_DIR PIOENV : string) : path :=
  (Path PROJECT_DIR / ".pio" / "build" / PIOENV)%path.

Definition post_firmware_dir (PROJECT_DIR : string) : path :=
  (Path PROJECT_DIR / "firmware")%path.

(** The paths a run may write: the destination directory, the two
    destinations, and the place inside a destination that is a directory. *)
Definition write_set (firmware_dir : path) : list path :=
  [ firmware_dir;
    firmware_dir ++ ["firmware.bin"];
    firmware_dir ++ ["firmware.bin"; "firmware.bin"];
    firmware_dir ++ ["spiffs.bin"];
    firmware_dir ++ ["spiffs.bin"; "spiffs.bin"] ].

(** A report line for the artifact with the given label and file name: copied,
    not found, or an error that is an [OSError]. *)
Definition line_about (file_name src_name : string) (l : line) : Prop :=
  match l with
  | CopiedLine n s _ => n = file_name ∧ s = src_name
  | NotFoundLine n s => n = file_name ∧ s = src_name
  | ErrorLine n e => n = file_name ∧ is_OSError e = true
  | _ => False
  end.

(** A node that is still what it was: a directory is untouched, a regular file
    is still a regular file. *)
Definition kept (n n' : node) : Prop :=
  match n with
  | Dir _ => n' = n
  | File _ _ => is_dir_node n' = false
  end.

(** Why a source that is there cannot be read, if it cannot. *)
Definition source_error (p : path) (n : node) : option exn :=
  match n with
  | Dir _ => Some (IsADirectoryError p)
  | File _ fm => if can_read fm then None else Some (PermissionError p)
  end.

(** Both artifacts built; [firmware/firmware.bin] is a directory. *)
Definition nested_tree : gmap path node :=
  <[sample_project ++ ["firmware"; "firmware.bin"] := Dir rw]>
    (<[sample_project ++ ["firmware"] := Dir rw]> built_tree).

(** A list of artifacts that a loop body handles one by one, each on its own:
    taken in the opposite order, the loop leaves the same file system and the
    same count, and prints the same lines in the opposite order; and each
    artifact gets the line it gets when it is the only one. *)
Definition order_free (body : file_info → Z → M Z) (l : list file_info) : Prop :=
  ∀ (c : Z) (w : world),
    let r := for_each l body c w in
    let r' := for_each (reverse l) body c w in
    fs r.1 = fs r'.1 ∧
    r.2 = r'.2 ∧
    new_lines w r'.1 = reverse (new_lines w r.1) ∧
    new_lines w r.1 = flat_map (λ a, new_lines w (body a c w).1) l.

(** A source whose copy can be overwritten later: [copy2] hands the mode of
    the source to the copy, so this asks for the owner's write bit on a source
    that is a regular file. *)
Definition owner_writable (m : gmap path node) (p : path) : bool :=
  match m !! p with
  | Some (File _ fm) => can_write fm
  | _ => true
  end.

(** A string without a slash. *)
Fixpoint slash_free (s : string) : bool :=
  match s with
  | EmptyString => true
  | String c s' => negb (Ascii.eqb c "/"%char) && slash_free s'
  end.

(** ** The calls meet their descriptions *)

Ltac run_M :=
  cbv [mbind M_bind mret M_ret raise catch try_except_Exception
       get_fs put_fs os_stat] in *; cbn [fs stdout] in *.

Lemma world_eta w : World (fs w) (stdout w) = w.
Proof. by destruct w. Qed.

Lemma Path_exists_spec p w : Path_exists p w = (w, Ok (exists_in (fs w) p)).
Proof. unfold Path_exists, exists_in. run_M. by destruct (fs w !! p). Qed.

Lemma os_path_isdir_spec p w : os_path_isdir p w = (w, Ok (isdir_in (fs w) p)).
Proof.
  unfold os_path_isdir, isdir_in. run_M.
  by destruct (fs w !! p) as [[]|].
Qed.

Lemma Path_mkdir_spec p w :
  Path_mkdir p true w =
  match mkdir_outcome (fs w) p with
  | Ok m' => (World m' (stdout w), Ok tt)
  | Raise e => (w, Raise e)
  end.
Proof.
  unfold Path_mkdir, os_mkdir, mkdir_outcome. run_M.
  destruct (fs w !! p) as [[]|] eqn:Hp; cbn.
  - rewrite os_path_isdir_spec. unfold isdir_in. by rewrite Hp.
  - rewrite os_path_isdir_spec. unfold isdir_in. rewrite Hp. cbn.
    by rewrite world_eta.
  - destruct (fs w !! parent p) as [[? ?|pm]|] eqn:Hpar; try done.
    + cbn. rewrite os_path_isdir_spec. unfold isdir_in. by rewrite Hp.
    + destruct (can_write pm); [done|]. cbn.
      rewrite os_path_isdir_spec. unfold isdir_in. by rewrite Hp.
Qed.

Lemma shutil_copy2_spec src dst w :
  shutil_copy2 src dst w =
  match copy2_outcome (fs w) src dst with
  | Ok n => (World (<[copy2_target (fs w) src dst := n]> (fs w)) (stdout w),
             Ok (copy2_target (fs w) src dst))
  | Raise e => (w, Raise e)
  end.
Proof.
  unfold shutil_copy2. unfold mbind at 1, M_bind at 1.
  rewrite os_path_isdir_spec.
  unfold copy2_outcome, copy2_target.
  set (t := if isdir_in (fs w) dst then os_path_join dst (name src) else dst).
  unfold shutil_copyfile, shutil_copystat, read_file, write_file, os_chmod, open_wb.
  run_M.
  case_bool_decide as Hst; [done|].
  destruct (fs w !! src) as [[data fm|?]|] eqn:Hsrc; try done.
  destruct (can_read fm); [|done].
  destruct (fs w !! t) as [[d' tm|?]|] eqn:Ht; try done.
  - destruct (can_write tm); [|done]. cbn.
    rewrite lookup_insert_ne by done. rewrite Hsrc. cbn.
    rewrite lookup_insert_eq. cbn. by rewrite insert_insert_eq.
  - destruct (fs w !! parent t) as [[? ?|pm]|] eqn:Hpar; try done.
    destruct (can_write pm); [|done]. cbn.
    rewrite lookup_insert_ne by done. rewrite Hsrc. cbn.
    rewrite lookup_insert_eq. cbn. by rewrite insert_insert_eq.
Qed.

(** Whatever [copy2] raises is an [OSError], hence an [Exception]. *)
Lemma copy2_outcome_OSError m src dst e :
  copy2_outcome m src dst = Raise e → is_OSError e = true.
Proof.
  unfold copy2_outcome, open_wb. intros H.
  repeat (case_bool_decide || case_match); by simplify_eq.
Qed.

Lemma is_OSError_Exception e : is_OSError e = true → is_Exception e = true.
Proof. by destruct e. Qed.

(** After a copy that went through, [dest_file.stat()] finds a node. *)
Lemma stat_after_copy2 m src dst n :
  copy2_outcome m src dst = Ok n →
  <[copy2_target m src dst := n]> m !! dst =
  Some (if bool_decide (copy2_target m src dst = dst) then n
        else Dir (match m !! dst with Some (Dir dm) => dm | _ => fresh_mode end)).
Proof.
  intros H. case_bool_decide as Ht.
  - rewrite Ht. by rewrite lookup_insert_eq.
  - rewrite lookup_insert_ne by done.
    unfold copy2_target, isdir_in in Ht.
    by destruct (m !! dst) as [[]|].
Qed.

Section Loop.
Variable body : file_info → Z → M Z.
Hypothesis body_spec : ∀ a c w,
  body a c w =
  (World (step_fs (fs w) a) (stdout w ++ [report a (step_outcome (fs w) a)]),
   Ok (c + gain (step_outcome (fs w) a))).

Lemma for_each_spec l c w :
  for_each l body c w =
  (World (loop_fs (fs w) l) (stdout w ++ loop_lines (fs w) l),
   Ok (c + loop_gain (fs w) l)).
Proof using body_spec.
  revert c w. induction l as [|a l IH]; intros c w; cbn [for_each loop_fs loop_lines loop_gain].
  - unfold mret, M_ret. by rewrite app_nil_r, Z.add_0_r, world_eta.
  - unfold mbind, M_bind. rewrite body_spec, IH. cbn [fs stdout].
    by rewrite <- app_assoc, Z.add_assoc.
Qed.
End Loop.

Lemma standalone_loop_body_spec a c w :
  Standalone.loop_body a c w =
  (World (step_fs (fs w) a) (stdout w ++ [report a (step_outcome (fs w) a)]),
   Ok (c + gain (step_outcome (fs w) a))).
Proof.
  unfold Standalone.loop_body, try_except_Exception, catch.
  unfold mbind at 1, M_bind at 1. rewrite Path_exists_spec.
  unfold step_fs, step_outcome.
  destruct (exists_in (fs w) (Entry.source a)) eqn:Hex.
  - unfold mbind at 1, M_bind at 1. rewrite shutil_copy2_spec.
    destruct (copy2_outcome (fs w) (Entry.source a) (Entry.dest a)) as [n|e] eqn:Hc.
    + unfold os_stat, print. run_M.
      rewrite (stat_after_copy2 _ _ _ _ Hc). cbn.
      case_bool_decide; by rewrite ?Z.add_0_r.
    + rewrite (is_OSError_Exception _ (copy2_outcome_OSError _ _ _ _ Hc)).
      unfold print. run_M. by rewrite Z.add_0_r.
  - unfold print. run_M. by rewrite Z.add_0_r.
Qed.

Lemma postbuild_loop_body_eq : PostBuild.loop_body = Standalone.loop_body.
Proof. reflexivity. Qed.

(** ** Paths of the standalone script *)

Lemma standalone_firmware_dir f :
  Standalone.firmware_dir f = Standalone.project_dir f ++ ["firmware"].
Proof. reflexivity. Qed.

Lemma standalone_files_to_copy f :
  Standalone.files_to_copy f = [firmware_bin f; spiffs_bin f].
Proof.
  unfold Standalone.files_to_copy, firmware_bin, spiffs_bin,
    Standalone.build_dir, Standalone.firmware_dir, truediv.
  cbn. by rewrite <- !app_assoc.
Qed.

Lemma parent_snoc (p : path) c : parent (p ++ [c]) = p.
Proof. unfold parent. by rewrite removelast_last. Qed.

(** The description of a whole run of the standalone routine. *)
Lemma standalone_run_spec f w :
  Standalone.copy_firmware_files f w =
  match mkdir_outcome (fs w) (Standalone.firmware_dir f) with
  | Raise e => (World (fs w) (stdout w ++ [Rule; CopyingLine]), Raise e)
  | Ok m1 =>
      let l := Standalone.files_to_copy f in
      (World (loop_fs m1 l)
         (stdout w ++ [Rule; CopyingLine] ++ loop_lines m1 l ++ summary (loop_gain m1 l)),
       Ok (PyInt (loop_gain m1 l)))
  end.
Proof.
  unfold Standalone.copy_firmware_files, print.
  unfold mbind at 1 2 3, M_bind at 1 2 3. cbn [fs stdout].
  rewrite Path_mkdir_spec. cbn [fs stdout].
  rewrite <- app_assoc. cbn [app].
  destruct (mkdir_outcome _ _) as [m1|e]; [|done].
  unfold mbind at 1, M_bind at 1.
  rewrite (for_each_spec _ standalone_loop_body_spec). cbn [fs stdout].
  rewrite Z.add_0_l. unfold summary.
  destruct (loop_gain m1 _ >? 0); run_M; cbn;
    by rewrite <- !app_assoc.
Qed.

Lemma postbuild_loop_body_spec a c w :
  PostBuild.loop_body a c w =
  (World (step_fs (fs w) a) (stdout w ++ [report a (step_outcome (fs w) a)]),
   Ok (c + gain (step_outcome (fs w) a))).
Proof. rewrite postbuild_loop_body_eq. apply standalone_loop_body_spec. Qed.

(** The description of a whole run of the post-build action. *)
Lemma postbuild_run_spec s t (env : gmap string string) w :
  PostBuild.copy_firmware_files s t env w =
  let w0 := World (fs w) (stdout w ++ [Rule; CopyingLine]) in
  match env !! "PROJECT_DIR" with
  | None => (w0, Raise (KeyError "PROJECT_DIR"))
  | Some PROJECT_DIR =>
      match env !! "PIOENV" with
      | None => (w0, Raise (KeyError "PIOENV"))
      | Some PIOENV =>
          let project_dir := Path PROJECT_DIR in
          let build_dir := (project_dir / ".pio" / "build" / PIOENV)%path in
          let firmware_dir := (project_dir / "firmware")%path in
          match mkdir_outcome (fs w) firmware_dir with
          | Raise e => (w0, Raise e)
          | Ok m1 =>
              let l := PostBuild.files_to_copy build_dir firmware_dir in
              (World (loop_fs m1 l)
                 (stdout w ++ [Rule; CopyingLine] ++ loop_lines m1 l
                    ++ summary (loop_gain m1 l)),
               Ok PyNone)
          end
      end
  end.
Proof.
  unfold PostBuild.copy_firmware_files, print, subscript.
  unfold mbind at 1 2 3 4, M_bind at 1 2 3 4. cbn [fs stdout].
  rewrite <- app_assoc. cbn [app].
  destruct (env !! "PROJECT_DIR") as [pd|]; [|done].
  destruct (env !! "PIOENV") as [pe|]; [|done].
  unfold mbind at 1, M_bind at 1.
  rewrite Path_mkdir_spec. cbn [fs stdout].
  destruct (mkdir_outcome _ _) as [m1|e]; [|done].
  unfold mbind at 1, M_bind at 1.
  rewrite (for_each_spec _ postbuild_loop_body_spec). cbn [fs stdout].
  rewrite Z.add_0_l. unfold summary.
  destruct (loop_gain m1 _ >? 0); run_M; cbn;
    by rewrite <- !app_assoc.
Qed.

(** ** Counting *)

Lemma gain_bounds o : 0 ≤ gain o ≤ 1.
Proof. destruct o; cbn; lia. Qed.

Lemma loop_gain_bounds m l : 0 ≤ loop_gain m l ≤ Z.of_nat (length l).
Proof.
  revert m. induction l as [|a l IH]; intros m; cbn [loop_gain length]; [lia|].
  specialize (IH (step_fs m a)). pose proof (gain_bounds (step_outcome m a)). lia.
Qed.

Lemma copied_lines_app out1 out2 :
  copied_lines (out1 ++ out2) = copied_lines out1 + copied_lines out2.
Proof. unfold copied_lines. rewrite List.filter_app, length_app. lia. Qed.

Lemma copied_lines_report a o : copied_lines [report a o] = gain o.
Proof. by destruct o. Qed.

Lemma copied_lines_loop m l : copied_lines (loop_lines m l) = loop_gain m l.
Proof.
  revert m. induction l as [|a l IH]; intros m; cbn [loop_lines loop_gain]; [done|].
  change (report a (step_outcome m a) :: loop_lines (step_fs m a) l)
    with ([report a (step_outcome m a)] ++ loop_lines (step_fs m a) l).
  by rewrite copied_lines_app, copied_lines_report, IH.
Qed.

Lemma copied_lines_summary n : copied_lines (summary n) = 0.
Proof. unfold summary. by destruct (n >? 0). Qed.

(** The new lines of a run hold as many "copied" lines as the loop counted. *)
Lemma copied_lines_run out m l :
  copied_lines (out ++ [Rule; CopyingLine] ++ loop_lines m l ++ summary (loop_gain m l))
  = copied_lines out + loop_gain m l.
Proof.
  rewrite !copied_lines_app, copied_lines_loop, copied_lines_summary.
  change (copied_lines [Rule; CopyingLine]) with 0. lia.
Qed.

(** ** Frame and idempotence of one turn of the loop *)

Lemma copy2_target_cases m src dst :
  copy2_target m src dst = dst ∨ copy2_target m src dst = os_path_join dst (name src).
Proof. unfold copy2_target. destruct (isdir_in m dst); auto. Qed.

(** A turn writes at its target and nowhere else. *)
Lemma step_fs_other m a p :
  p ≠ Entry.dest a →
  p ≠ os_path_join (Entry.dest a) (name (Entry.source a)) →
  step_fs m a !! p = m !! p.
Proof.
  intros H1 H2. unfold step_fs.
  destruct (exists_in m (Entry.source a)); [|done].
  destruct (copy2_outcome m _ _); [|done].
  destruct (copy2_target_cases m (Entry.source a) (Entry.dest a)) as [-> | ->];
    by rewrite lookup_insert_ne.
Qed.

(** What a turn decides depends on the footprint only. *)
Lemma step_frame m m' a :
  agree_on (footprint a) m m' →
  exists_in m (Entry.source a) = exists_in m' (Entry.source a) ∧
  copy2_target m (Entry.source a) (Entry.dest a)
  = copy2_target m' (Entry.source a) (Entry.dest a) ∧
  copy2_outcome m (Entry.source a) (Entry.dest a)
  = copy2_outcome m' (Entry.source a) (Entry.dest a).
Proof.
  unfold agree_on, footprint. cbn zeta.
  rewrite !Forall_cons. intros (Hs & Hd & Hj & Hpd & Hpj & _).
  assert (Ht : copy2_target m (Entry.source a) (Entry.dest a)
               = copy2_target m' (Entry.source a) (Entry.dest a)).
  { unfold copy2_target, isdir_in. by rewrite Hd. }
  split; [unfold exists_in; by rewrite Hs|]. split; [done|].
  unfold copy2_outcome. rewrite <- Ht, Hs.
  assert (Ho : open_wb m (copy2_target m (Entry.source a) (Entry.dest a))
               = open_wb m' (copy2_target m (Entry.source a) (Entry.dest a))).
  { unfold open_wb.
    destruct (copy2_target_cases m (Entry.source a) (Entry.dest a)) as [-> | ->].
    - by rewrite Hd, Hpd.
    - by rewrite Hj, Hpj. }
  by rewrite Ho.
Qed.

Lemma step_outcome_frame m m' a :
  agree_on (footprint a) m m' → step_outcome m a = step_outcome m' a.
Proof.
  intros (He & Ht & Ho)%step_frame. unfold step_outcome. by rewrite He, Ht, Ho.
Qed.

(** A successful copy leaves the target as a copy of the source, so the
    same turn taken again finds nothing to change. *)
Lemma step_fs_idem m a : step_fs (step_fs m a) a = step_fs m a.
Proof.
  unfold step_fs at 2 3.
  destruct (exists_in m (Entry.source a)) eqn:Hex; [|unfold step_fs; by rewrite Hex].
  destruct (copy2_outcome m (Entry.source a) (Entry.dest a)) as [n|e] eqn:Hc;
    [|unfold step_fs; by rewrite Hex, Hc].
  set (src := Entry.source a) in *. set (dst := Entry.dest a) in *.
  set (t := copy2_target m src dst) in *.
  (* what the first copy found *)
  unfold copy2_outcome in Hc. fold t in Hc.
  case_bool_decide as Hst; [done|].
  destruct (m !! src) as [[data fm|?]|] eqn:Hsrc; try done.
  destruct (can_read fm) eqn:Hr; [|done].
  destruct (open_wb m t) as [[]|] eqn:Ho; [|done]. simplify_eq.
  (* the destination is no directory afterwards unless it was one before *)
  assert (Ht' : copy2_target (<[t := File data fm]> m) src dst = t).
  { unfold copy2_target, isdir_in.
    destruct (decide (t = dst)) as [Heq|Hne].
    - rewrite <- Heq at 1. by rewrite lookup_insert_eq.
    - by rewrite lookup_insert_ne. }
  unfold step_fs. unfold exists_in at 1. rewrite lookup_insert_ne by done.
  fold src dst. rewrite Hsrc.
  unfold copy2_outcome. rewrite Ht'.
  rewrite bool_decide_false by done.
  rewrite lookup_insert_ne by done. rewrite Hsrc, Hr.
  unfold open_wb at 1. rewrite lookup_insert_eq.
  destruct (can_write fm); [|done].
  by rewrite insert_insert_eq.
Qed.

(** A turn that changes nothing keeps changing nothing when the rest of the
    file system moves. *)
Lemma step_fs_stable_frame m m' a :
  agree_on (footprint a) m m' → step_fs m a = m → step_fs m' a = m'.
Proof.
  intros Hag Hst. pose proof (step_frame _ _ _ Hag) as (He & Ht & Ho).
  unfold step_fs in *. rewrite <- He, <- Ht, <- Ho.
  destruct (exists_in m (Entry.source a)); [|done].
  destruct (copy2_outcome m (Entry.source a) (Entry.dest a)) as [n|e]; [|done].
  set (t := copy2_target m (Entry.source a) (Entry.dest a)) in *.
  assert (Hn : m !! t = Some n) by (rewrite <- Hst; apply lookup_insert_eq).
  apply insert_id. rewrite <- Hn. symmetry.
  unfold agree_on, footprint in Hag. cbn zeta in Hag. rewrite !Forall_cons in Hag.
  destruct Hag as (_ & Hd & Hj & _).
  subst t. by destruct (copy2_target_cases m (Entry.source a) (Entry.dest a)) as [-> | ->].
Qed.

(** ** The standalone script's artifacts do not interfere *)

Lemma parent_app_snoc (p l : path) c : parent (p ++ l ++ [c]) = p ++ l.
Proof. unfold parent. by rewrite app_assoc, removelast_last. Qed.

Lemma name_app_snoc (p l : path) c : name (p ++ l ++ [c]) = c.
Proof. unfold name. by rewrite app_assoc, last_last. Qed.

Ltac path_neq :=
  let H := fresh in
  intros H; rewrite <- ?app_assoc in H; cbn [app] in H;
  first [ apply app_inv_head in H; discriminate H
        | symmetry in H; apply app_inv_head in H; discriminate H ].

Lemma footprint_firmware_bin f :
  footprint (firmware_bin f) =
  let P := Standalone.project_dir f in
  [ P ++ [".pio"; "build"; "esp32doit-devkit-v1"; "firmware.bin"];
    P ++ ["firmware"; "firmware.bin"];
    P ++ ["firmware"; "firmware.bin"; "firmware.bin"];
    P ++ ["firmware"];
    P ++ ["firmware"; "firmware.bin"] ].
Proof.
  unfold footprint, firmware_bin. cbn [Entry.source Entry.dest]. cbn zeta.
  rewrite (name_app_snoc _ [".pio"; "build"; "esp32doit-devkit-v1"] "firmware.bin").
  change (os_path_join ?d "firmware.bin") with (d ++ ["firmware.bin"]).
  rewrite (parent_app_snoc _ ["firmware"] "firmware.bin").
  rewrite <- app_assoc. cbn [app].
  by rewrite (parent_app_snoc _ ["firmware"; "firmware.bin"] "firmware.bin").
Qed.

Lemma footprint_spiffs_bin f :
  footprint (spiffs_bin f) =
  let P := Standalone.project_dir f in
  [ P ++ [".pio"; "build"; "esp32doit-devkit-v1"; "spiffs.bin"];
    P ++ ["firmware"; "spiffs.bin"];
    P ++ ["firmware"; "spiffs.bin"; "spiffs.bin"];
    P ++ ["firmware"];
    P ++ ["firmware"; "spiffs.bin"] ].
Proof.
  unfold footprint, spiffs_bin. cbn [Entry.source Entry.dest]. cbn zeta.
  rewrite (name_app_snoc _ [".pio"; "build"; "esp32doit-devkit-v1"] "spiffs.bin").
  change (os_path_join ?d "spiffs.bin") with (d ++ ["spiffs.bin"]).
  rewrite (parent_app_snoc _ ["firmware"] "spiffs.bin").
  rewrite <- app_assoc. cbn [app].
  by rewrite (parent_app_snoc _ ["firmware"; "spiffs.bin"] "spiffs.bin").
Qed.

(** Where each artifact may be written. *)
Lemma targets_firmware_bin f :
  Entry.dest (firmware_bin f) = Standalone.project_dir f ++ ["firmware"; "firmware.bin"] ∧
  os_path_join (Entry.dest (firmware_bin f)) (name (Entry.source (firmware_bin f)))
  = Standalone.project_dir f ++ ["firmware"; "firmware.bin"; "firmware.bin"].
Proof.
  pose proof (footprint_firmware_bin f) as H. unfold footprint in H. cbn zeta in H.
  by simplify_eq.
Qed.

Lemma targets_spiffs_bin f :
  Entry.dest (spiffs_bin f) = Standalone.project_dir f ++ ["firmware"; "spiffs.bin"] ∧
  os_path_join (Entry.dest (spiffs_bin f)) (name (Entry.source (spiffs_bin f)))
  = Standalone.project_dir f ++ ["firmware"; "spiffs.bin"; "spiffs.bin"].
Proof.
  pose proof (footprint_spiffs_bin f) as H. unfold footprint in H. cbn zeta in H.
  by simplify_eq.
Qed.

(** Copying the file-system image leaves alone all that decides the fate of
    the firmware image, and the other way round. *)
Lemma spiffs_keeps_firmware_footprint f m :
  agree_on (footprint (firmware_bin f)) m (step_fs m (spiffs_bin f)).
Proof.
  unfold agree_on. rewrite footprint_firmware_bin. cbn zeta.
  destruct (targets_spiffs_bin f) as [Hd Hj].
  repeat apply Forall_cons_2; [..|apply Forall_nil_2];
    symmetry; apply step_fs_other; rewrite ?Hj, ?Hd; path_neq.
Qed.

Lemma firmware_keeps_spiffs_footprint f m :
  agree_on (footprint (spiffs_bin f)) m (step_fs m (firmware_bin f)).
Proof.
  unfold agree_on. rewrite footprint_spiffs_bin. cbn zeta.
  destruct (targets_firmware_bin f) as [Hd Hj].
  repeat apply Forall_cons_2; [..|apply Forall_nil_2];
    symmetry; apply step_fs_other; rewrite ?Hj, ?Hd; path_neq.
Qed.

(** The loop of the standalone script, run on its own result, changes
    nothing. *)
Lemma standalone_loop_idem f m :
  loop_fs (loop_fs m (Standalone.files_to_copy f)) (Standalone.files_to_copy f)
  = loop_fs m (Standalone.files_to_copy f).
Proof.
  rewrite standalone_files_to_copy. cbn [loop_fs].
  set (m2 := step_fs m (firmware_bin f)).
  assert (H1 : step_fs (step_fs m2 (spiffs_bin f)) (firmware_bin f)
               = step_fs m2 (spiffs_bin f)).
  { apply (step_fs_stable_frame m2); [apply spiffs_keeps_firmware_footprint|].
    apply step_fs_idem. }
  rewrite H1. apply step_fs_idem.
Qed.

Lemma standalone_loop_other f m p :
  p ≠ Standalone.project_dir f ++ ["firmware"; "firmware.bin"] →
  p ≠ Standalone.project_dir f ++ ["firmware"; "firmware.bin"; "firmware.bin"] →
  p ≠ Standalone.project_dir f ++ ["firmware"; "spiffs.bin"] →
  p ≠ Standalone.project_dir f ++ ["firmware"; "spiffs.bin"; "spiffs.bin"] →
  loop_fs m (Standalone.files_to_copy f) !! p = m !! p.
Proof.
  intros H1 H2 H3 H4. rewrite standalone_files_to_copy. cbn [loop_fs].
  destruct (targets_firmware_bin f) as [Hd1 Hj1].
  destruct (targets_spiffs_bin f) as [Hd2 Hj2].
  rewrite step_fs_other by (by rewrite ?Hj2, ?Hd2).
  by rewrite step_fs_other by (by rewrite ?Hj1, ?Hd1).
Qed.

(** ** Directory creation *)

Lemma mkdir_outcome_other m p m1 q :
  mkdir_outcome m p = Ok m1 → q ≠ p → m1 !! q = m !! q.
Proof.
  unfold mkdir_outcome. intros H Hq.
  repeat case_match; simplify_eq; by rewrite ?lookup_insert_ne.
Qed.

Lemma mkdir_outcome_isdir m p m1 : mkdir_outcome m p = Ok m1 → isdir_in m1 p = true.
Proof.
  unfold mkdir_outcome, isdir_in. intros H.
  repeat case_match; simplify_eq; try done.
  all: by rewrite lookup_insert_eq in *.
Qed.

Lemma mkdir_outcome_existing m p : isdir_in m p = true → mkdir_outcome m p = Ok m.
Proof. unfold mkdir_outcome, isdir_in. by destruct (m !! p) as [[]|]. Qed.

Lemma isdir_in_agree m m' p : m !! p = m' !! p → isdir_in m p = isdir_in m' p.
Proof. unfold isdir_in. by intros ->. Qed.

(** The error lines of the loop never say "file exists". *)
Lemma copy2_outcome_not_exists m src dst p :
  copy2_outcome m src dst ≠ Raise (FileExistsError p).
Proof.
  unfold copy2_outcome, open_wb. intros H.
  repeat (case_bool_decide || case_match); by simplify_eq.
Qed.

Lemma loop_lines_not_exists m l file_name p :
  ErrorLine file_name (FileExistsError p) ∉ loop_lines m l.
Proof.
  revert m. induction l as [|a l IH]; intros m; cbn [loop_lines].
  - by intros ?%elem_of_nil.
  - intros [Hr|?]%elem_of_cons; [|by eapply IH].
    unfold step_outcome in Hr.
    destruct (exists_in m (Entry.source a)); [|done].
    destruct (copy2_outcome m (Entry.source a) (Entry.dest a)) as [n|e] eqn:Hc; [done|].
    cbn in Hr. simplify_eq. by eapply copy2_outcome_not_exists.
Qed.

Lemma summary_no_error n file_name e : ErrorLine file_name e ∉ summary n.
Proof.
  unfold summary. destruct (n >? 0); cbn; rewrite !elem_of_cons;
    intros H; repeat (destruct H as [H|H]; [done|]); by apply elem_of_nil in H.
Qed.

(** ** The two ways a turn can go well *)

Lemma step_skips m a :
  exists_in m (Entry.source a) = false →
  step_fs m a = m ∧ step_outcome m a = Skipped.
Proof. intros H. unfold step_fs, step_outcome. by rewrite H. Qed.

Lemma open_wb_not_dir m p : open_wb m p = Ok tt → isdir_in m p = false.
Proof. unfold open_wb, isdir_in. by destruct (m !! p) as [[]|]. Qed.

Lemma step_copies m a :
  readable_file m (Entry.source a) = true →
  Entry.source a ≠ Entry.dest a →
  open_wb m (Entry.dest a) = Ok tt →
  ∃ n, m !! Entry.source a = Some n ∧
       step_fs m a = <[Entry.dest a := n]> m ∧
       step_outcome m a = Copied (st_size n).
Proof.
  intros Hr Hne Ho. pose proof (open_wb_not_dir _ _ Ho) as Hd.
  unfold readable_file in Hr.
  destruct (m !! Entry.source a) as [[data fm|]|] eqn:Hs; try done.
  exists (File data fm). split; [done|].
  unfold step_fs, step_outcome, exists_in, copy2_outcome, copy2_target.
  rewrite Hd, Hs, Hr, Ho, bool_decide_false by done.
  by rewrite bool_decide_true.
Qed.

Lemma open_wb_frame m p t n :
  p ≠ t → parent p ≠ t → open_wb (<[t := n]> m) p = open_wb m p.
Proof. intros H1 H2. unfold open_wb. by rewrite !lookup_insert_ne. Qed.

(** Once the directory is there, a destination that was ready can be opened. *)
Lemma dest_ready_open m dir dst m1 :
  mkdir_outcome m dir = Ok m1 →
  parent dst = dir → dst ≠ dir →
  dest_ready m dir dst = true →
  open_wb m1 dst = Ok tt.
Proof.
  intros Hmk <- Hne Hr. unfold open_wb.
  rewrite (mkdir_outcome_other _ _ _ _ Hmk Hne).
  unfold dest_ready in Hr. unfold mkdir_outcome in Hmk.
  destruct (m !! dst) as [[? fm|]|]; try done.
  - by rewrite Hr.
  - destruct (m !! parent dst) as [[|dm]|] eqn:Hdir; simplify_eq.
    + by rewrite Hdir, Hr.
    + destruct (m !! parent (parent dst)) as [[|pm]|]; try done.
      destruct (can_write pm); simplify_eq. by rewrite lookup_insert_eq.
Qed.

(** * The claims *)

(** Checks a [Forall] over a concrete list by evaluation. *)
Ltac check_all :=
  repeat (apply Forall_cons_2; [vm_compute; reflexivity|]); apply Forall_nil_2.

Lemma for_each_app {A S} (body : A → S → M S) l1 l2 c w :
  for_each (l1 ++ l2) body c w =
  match for_each l1 body c w with
  | (w1, Ok c1) => for_each l2 body c1 w1
  | (w1, Raise e) => (w1, Raise e)
  end.
Proof.
  revert c w. induction l1 as [|a l1 IH]; intros c w; cbn [for_each app]; [done|].
  unfold mbind, M_bind. destruct (body a c w) as [w1 [c1|e]]; [apply IH|done].
Qed.

Lemma count_invariant_of_spec body :
  (∀ a c w,
     body a c w =
     (World (step_fs (fs w) a) (stdout w ++ [report a (step_outcome (fs w) a)]),
      Ok (c + gain (step_outcome (fs w) a)))) →
  count_invariant body.
Proof.
  intros Hb l1 l2 c w.
  rewrite for_each_app, !(for_each_spec _ Hb). cbn [fs stdout].
  rewrite ?(for_each_spec _ Hb). cbn [fs stdout].
  do 4 eexists. split; [done|]. split; [done|].
  pose proof (loop_gain_bounds (fs w) l1).
  pose proof (loop_gain_bounds (loop_fs (fs w) l1) l2). lia.
Qed.

Lemma report_not_success a o n : report a o ≠ SuccessLine n.
Proof. by destruct o. Qed.

Lemma loop_lines_no_success m l n : SuccessLine n ∉ loop_lines m l.
Proof.
  revert m. induction l as [|a l IH]; intros m; cbn [loop_lines].
  - by intros ?%elem_of_nil.
  - intros [?|?]%elem_of_cons; [by eapply report_not_success|by eapply IH].
Qed.

Lemma success_line_shown m l n :
  SuccessLine n ∈ [Rule; CopyingLine] ++ loop_lines m l ++ summary (loop_gain m l) →
  n = loop_gain m l ∧ 0 < n.
Proof.
  cbn [app]. rewrite !elem_of_cons, elem_of_app.
  intros [?|[?|[?|Hs]]]; try done.
  - by apply loop_lines_no_success in H.
  - unfold summary in Hs. destruct (loop_gain m l >? 0) eqn:Hg; cbn in Hs.
    + rewrite !elem_of_cons in Hs. destruct Hs as [?|[?|[?|?%elem_of_nil]]]; try done.
      simplify_eq. split; [done|lia].
    + rewrite !elem_of_cons in Hs. destruct Hs as [?|[?|?%elem_of_nil]]; done.
Qed.

Lemma new_lines_app w out' m' : new_lines w (World m' (stdout w ++ out')) = out'.
Proof. unfold new_lines. cbn. by rewrite drop_app_length. Qed.

(** C9. In every run of either script the success count starts at 0, never
    decreases while the artifacts are processed, grows by at most one per
    artifact, and so stays between 0 and 2, the length of the artifact list:
    this holds for the count the standalone routine returns and for every
    count either script prints. *)
Theorem success_count_bounds :
  count_invariant Standalone.loop_body ∧
  count_invariant PostBuild.loop_body ∧
  (∀ f w,
     match (Standalone.copy_firmware_files f w).2 with
     | Ok v => ∃ n, v = PyInt n ∧ 0 ≤ n ≤ 2
     | Raise _ => True
     end) ∧
  (∀ f w n,
     SuccessLine n ∈ new_lines w (Standalone.copy_firmware_files f w).1 →
     0 ≤ n ≤ 2) ∧
  (∀ s t env w n,
     SuccessLine n ∈ new_lines w (PostBuild.copy_firmware_files s t env w).1 →
     0 ≤ n ≤ 2).
Proof.
  split; [apply count_invariant_of_spec, standalone_loop_body_spec|].
  split; [apply count_invariant_of_spec, postbuild_loop_body_spec|].
  split; [|split].
  - intros f w. rewrite standalone_run_spec.
    destruct (mkdir_outcome _ _) as [m1|e]; [|done]. cbn [snd].
    eexists; split; [done|].
    pose proof (loop_gain_bounds m1 (Standalone.files_to_copy f)) as H.
    cbn [length Standalone.files_to_copy] in H. lia.
  - intros f w n. rewrite standalone_run_spec.
    destruct (mkdir_outcome _ _) as [m1|e]; cbn [fst]; rewrite new_lines_app.
    + intros [-> _]%success_line_shown.
      pose proof (loop_gain_bounds m1 (Standalone.files_to_copy f)) as H.
      cbn [length Standalone.files_to_copy] in H. lia.
    + rewrite !elem_of_cons. by intros [?|[?|?%elem_of_nil]].
  - intros s t env w n. rewrite postbuild_run_spec. cbn zeta.
    destruct (env !! "PROJECT_DIR") as [pd|]; cbn [fst];
      [|rewrite new_lines_app, !elem_of_cons; by intros [?|[?|?%elem_of_nil]]].
    destruct (env !! "PIOENV") as [pe|]; cbn [fst];
      [|rewrite new_lines_app, !elem_of_cons; by intros [?|[?|?%elem_of_nil]]].
    destruct (mkdir_outcome _ _) as [m1|e]; cbn [fst]; rewrite new_lines_app.
    + intros [-> _]%success_line_shown.
      match goal with |- context [loop_gain m1 ?l] =>
        pose proof (loop_gain_bounds m1 l) as H end.
      cbn [length PostBuild.files_to_copy] in H. lia.
    + rewrite !elem_of_cons. by intros [?|[?|?%elem_of_nil]].
Qed.

Lemma success_count_bounds_witness :
  let w := World built_tree [] in
  SuccessLine 2 ∈ new_lines w (Standalone.copy_firmware_files sample_file w).1 ∧
  0 ≤ 2 ≤ 2.
Proof.
  intros w.
  assert (H : SuccessLine 2 ∈ new_lines w (Standalone.copy_firmware_files sample_file w).1).
  { vm_compute. do 4 apply list_elem_of_further. apply list_elem_of_here. }
  split; [exact H|].
  exact (proj1 (proj2 (proj2 (proj2 success_count_bounds))) sample_file w 2 H).
Defined.

(** C10. On the same build and destination directories the loop of the
    post-build action is the loop of the standalone script: the same two
    artifacts in the same order, the same outcome for every artifact (file
    system and report line) and the same count; the two runs leave the same
    file system and the same report. *)
Theorem loops_agree (f : string) (env : gmap string string) (PROJECT_DIR : string) :
  env !! "PROJECT_DIR" = Some PROJECT_DIR →
  env !! "PIOENV" = Some "esp32doit-devkit-v1" →
  Path PROJECT_DIR = Standalone.project_dir f →
  let build_dir := (Path PROJECT_DIR / ".pio" / "build" / "esp32doit-devkit-v1")%path in
  let firmware_dir := (Path PROJECT_DIR / "firmware")%path in
  PostBuild.files_to_copy build_dir firmware_dir = Standalone.files_to_copy f ∧
  (∀ a c w, PostBuild.loop_body a c w = Standalone.loop_body a c w) ∧
  (∀ c w,
     for_each (PostBuild.files_to_copy build_dir firmware_dir) PostBuild.loop_body c w
     = for_each (Standalone.files_to_copy f) Standalone.loop_body c w) ∧
  (∀ s t w,
     (PostBuild.copy_firmware_files s t env w).1
     = (Standalone.copy_firmware_files f w).1).
Proof.
  intros Hpd Hpe Hproj build_dir firmware_dir.
  assert (Hfiles : PostBuild.files_to_copy build_dir firmware_dir
                   = Standalone.files_to_copy f).
  { unfold build_dir, firmware_dir, PostBuild.files_to_copy, Standalone.files_to_copy,
      Standalone.build_dir, Standalone.firmware_dir. by rewrite Hproj. }
  split; [done|]. split; [done|]. split.
  - intros c w. by rewrite Hfiles, postbuild_loop_body_eq.
  - intros s t w. rewrite postbuild_run_spec, standalone_run_spec, Hpd, Hpe.
    cbn zeta. fold build_dir firmware_dir. rewrite Hfiles.
    replace firmware_dir with (Standalone.firmware_dir f)
      by (unfold firmware_dir, Standalone.firmware_dir; by rewrite Hproj).
    by destruct (mkdir_outcome _ _).
Qed.

Lemma loops_agree_witness :
  sample_env !! "PROJECT_DIR" = Some "/home/proj" ∧
  sample_env !! "PIOENV" = Some "esp32doit-devkit-v1" ∧
  Path "/home/proj" = Standalone.project_dir sample_file ∧
  (PostBuild.copy_firmware_files [] [] sample_env (World built_tree [])).1
  = (Standalone.copy_firmware_files sample_file (World built_tree [])).1.
Proof.
  assert (H1 : sample_env !! "PROJECT_DIR" = Some "/home/proj") by reflexivity.
  assert (H2 : sample_env !! "PIOENV" = Some "esp32doit-devkit-v1") by reflexivity.
  assert (H3 : Path "/home/proj" = Standalone.project_dir sample_file) by reflexivity.
  split; [exact H1|]. split; [exact H2|]. split; [exact H3|].
  apply (loops_agree sample_file sample_env "/home/proj" H1 H2 H3).
Defined.

Lemma never_raises_of_spec body :
  (∀ a c w,
     body a c w =
     (World (step_fs (fs w) a) (stdout w ++ [report a (step_outcome (fs w) a)]),
      Ok (c + gain (step_outcome (fs w) a)))) →
  never_raises body.
Proof. intros Hb l c w. rewrite (for_each_spec _ Hb). by do 2 eexists. Qed.

Lemma records_failure_of_spec body a l c w e :
  (∀ a c w,
     body a c w =
     (World (step_fs (fs w) a) (stdout w ++ [report a (step_outcome (fs w) a)]),
      Ok (c + gain (step_outcome (fs w) a)))) →
  (Path_exists (Entry.source a) w).2 = Ok true →
  (shutil_copy2 (Entry.source a) (Entry.dest a) w).2 = Raise e →
  records_failure body a l c w e.
Proof.
  intros Hb Hex Hcp. rewrite Path_exists_spec in Hex. rewrite shutil_copy2_spec in Hcp.
  cbn [snd] in Hex.
  assert (Hbody : body a c w
                  = (World (fs w) (stdout w ++ [ErrorLine (Entry.name a) e]), Ok c)).
  { rewrite Hb. unfold step_fs, step_outcome.
    destruct (exists_in (fs w) (Entry.source a)); [|by simplify_eq].
    destruct (copy2_outcome _ _ _); cbn [snd] in Hcp; simplify_eq.
    cbn [report gain]. by rewrite Z.add_0_r. }
  split; [done|].
  cbn [for_each]. unfold mbind, M_bind. by rewrite Hbody.
Qed.

(** C3. Neither loop ever lets an exception out, whatever the artifacts and
    the file system; and when the source of an artifact is there and its copy
    raises an error, that artifact gets one error line, the count and the file
    system stay as they were, and the artifacts after it are processed from
    there exactly as they would be without it. *)
Theorem copy_failure_isolated :
  never_raises Standalone.loop_body ∧
  never_raises PostBuild.loop_body ∧
  ∀ (a : file_info) (l : list file_info) (c : Z) (w : world) (e : exn),
    (Path_exists (Entry.source a) w).2 = Ok true →
    (shutil_copy2 (Entry.source a) (Entry.dest a) w).2 = Raise e →
    records_failure Standalone.loop_body a l c w e ∧
    records_failure PostBuild.loop_body a l c w e.
Proof.
  split; [apply never_raises_of_spec, standalone_loop_body_spec|].
  split; [apply never_raises_of_spec, postbuild_loop_body_spec|].
  intros a l c w e Hex Hcp.
  split; eapply records_failure_of_spec; eauto using
    standalone_loop_body_spec, postbuild_loop_body_spec.
Qed.

Lemma copy_failure_isolated_witness :
  let w := World unreadable_tree [] in
  let e := PermissionError (Entry.source (firmware_bin sample_file)) in
  (Path_exists (Entry.source (firmware_bin sample_file)) w).2 = Ok true ∧
  (shutil_copy2 (Entry.source (firmware_bin sample_file))
     (Entry.dest (firmware_bin sample_file)) w).2 = Raise e ∧
  records_failure Standalone.loop_body (firmware_bin sample_file)
    [spiffs_bin sample_file] 0 w e ∧
  records_failure PostBuild.loop_body (firmware_bin sample_file)
    [spiffs_bin sample_file] 0 w e.
Proof.
  intros w e.
  assert (H1 : (Path_exists (Entry.source (firmware_bin sample_file)) w).2 = Ok true)
    by (vm_compute; reflexivity).
  assert (H2 : (shutil_copy2 (Entry.source (firmware_bin sample_file))
                  (Entry.dest (firmware_bin sample_file)) w).2 = Raise e)
    by (vm_compute; reflexivity).
  split; [exact H1|]. split; [exact H2|].
  exact (proj2 (proj2 copy_failure_isolated) (firmware_bin sample_file)
           [spiffs_bin sample_file] 0 w e H1 H2).
Defined.

Lemma mkdir_outcome_OSError m p e : mkdir_outcome m p = Raise e → is_OSError e = true.
Proof.
  unfold mkdir_outcome. intros H.
  repeat case_match; by simplify_eq.
Qed.

Lemma exit_status_OSError e : is_OSError e = true → exit_status (Raise e) = 1.
Proof. by destruct e. Qed.

Lemma standalone_main_spec f w :
  Standalone.main f w =
  match Standalone.copy_firmware_files f w with
  | (w1, Ok v) => (w1, Raise (SystemExit (if Standalone.positive v then 0 else 1)))
  | (w1, Raise e) => (w1, Raise e)
  end.
Proof. reflexivity. Qed.

(** C2. The standalone command exits with status 0 exactly when one artifact
    or more was copied, and with status 1 when none was, whether it skipped
    them, failed on them, or stopped before the loop; the count it tests is
    the number of "copied" lines of the report. *)
Theorem exit_status_reflects_copies (f : string) (w : world) :
  let run := Standalone.copy_firmware_files f w in
  let fin := Standalone.main f w in
  let copied := copied_lines (new_lines w run.1) in
  fin.1 = run.1 ∧
  (exit_status fin.2 = 0 ↔ 1 ≤ copied) ∧
  (exit_status fin.2 = 1 ↔ copied = 0) ∧
  match run.2 with
  | Ok v => v = PyInt copied ∧ fin.2 = Raise (SystemExit (if copied >? 0 then 0 else 1))
  | Raise e => copied = 0 ∧ fin.2 = Raise e ∧ is_OSError e = true
  end.
Proof.
  rewrite standalone_main_spec, standalone_run_spec.
  destruct (mkdir_outcome _ _) as [m1|e] eqn:Hmk; cbn [fst snd]; rewrite new_lines_app.
  - pose proof (copied_lines_run [] m1 (Standalone.files_to_copy f)) as Hc.
    cbn [app] in Hc. change (copied_lines []) with 0 in Hc. rewrite Z.add_0_l in Hc.
    cbn [app]. rewrite Hc. unfold Standalone.positive.
    pose proof (loop_gain_bounds m1 (Standalone.files_to_copy f)) as Hb.
    rewrite Z.gtb_ltb.
    destruct (Z.ltb_spec 0 (loop_gain m1 (Standalone.files_to_copy f))); cbn [exit_status];
      repeat split; intros; try done; lia.
  - change (copied_lines [Rule; CopyingLine]) with 0.
    pose proof (mkdir_outcome_OSError _ _ _ Hmk) as He.
    rewrite (exit_status_OSError _ He). repeat split; intros; try done; lia.
Qed.

Lemma mkdir_ready m (p : path) :
  dir_ready m p = true →
  mkdir_outcome m p = Ok (if isdir_in m p then m else <[p := Dir fresh_mode]> m).
Proof.
  unfold dir_ready, mkdir_outcome, isdir_in.
  destruct (m !! p) as [[]|]; try done.
  destruct (m !! parent p) as [[|pm]|]; try done.
  by intros ->.
Qed.

(** C8, as the code has it. The standalone routine returns the number of
    artifacts it copied as an integer, and it does return whenever the
    destination directory is there or can be made; the post-build action has
    no return statement and hands [None] to its caller, whatever it copied. *)
Theorem returned_value (f : string) (s t : list path) (env : gmap string string)
    (w : world) :
  let run := Standalone.copy_firmware_files f w in
  let act := PostBuild.copy_firmware_files s t env w in
  match run.2 with
  | Ok v => v = PyInt (copied_lines (new_lines w run.1))
  | Raise e => mkdir_outcome (fs w) (Standalone.firmware_dir f) = Raise e
  end ∧
  (dir_ready (fs w) (Standalone.firmware_dir f) = true → ∃ n, run.2 = Ok (PyInt n)) ∧
  match act.2 with
  | Ok v => v = PyNone
  | Raise _ => True
  end ∧
  (∀ PROJECT_DIR PIOENV,
     env !! "PROJECT_DIR" = Some PROJECT_DIR →
     env !! "PIOENV" = Some PIOENV →
     dir_ready (fs w) (Path PROJECT_DIR / "firmware")%path = true →
     act.2 = Ok PyNone).
Proof.
  cbn zeta. rewrite standalone_run_spec, postbuild_run_spec. cbn zeta.
  split; [|split; [|split]].
  - destruct (mkdir_outcome _ _) as [m1|e]; cbn [fst snd]; [|done].
    rewrite new_lines_app.
    pose proof (copied_lines_run [] m1 (Standalone.files_to_copy f)) as Hc.
    cbn [app] in *. rewrite Hc. by change (copied_lines []) with 0.
  - intros Hr. rewrite (mkdir_ready _ _ Hr). cbn [snd]. by eexists.
  - destruct (env !! "PROJECT_DIR"); [|done].
    destruct (env !! "PIOENV"); [|done].
    by destruct (mkdir_outcome _ _).
  - intros pd pe -> -> Hr. by rewrite (mkdir_ready _ _ Hr).
Qed.

Lemma returned_value_witness :
  let w := World built_tree [] in
  dir_ready (fs w) (Standalone.firmware_dir sample_file) = true ∧
  (∃ n, (Standalone.copy_firmware_files sample_file w).2 = Ok (PyInt n)) ∧
  sample_env !! "PROJECT_DIR" = Some "/home/proj" ∧
  sample_env !! "PIOENV" = Some "esp32doit-devkit-v1" ∧
  dir_ready (fs w) (Path "/home/proj" / "firmware")%path = true ∧
  (PostBuild.copy_firmware_files [] [] sample_env w).2 = Ok PyNone.
Proof.
  intros w.
  assert (H1 : dir_ready (fs w) (Standalone.firmware_dir sample_file) = true)
    by (vm_compute; reflexivity).
  assert (H2 : sample_env !! "PROJECT_DIR" = Some "/home/proj") by reflexivity.
  assert (H3 : sample_env !! "PIOENV" = Some "esp32doit-devkit-v1") by reflexivity.
  assert (H4 : dir_ready (fs w) (Path "/home/proj" / "firmware")%path = true)
    by (vm_compute; reflexivity).
  pose proof (returned_value sample_file [] [] sample_env w) as (_ & Hs & _ & Hp).
  split; [exact H1|]. split; [exact (Hs H1)|].
  split; [exact H2|]. split; [exact H3|]. split; [exact H4|].
  exact (Hp _ _ H2 H3 H4).
Defined.

(** C8, as stated, fails for the post-build action: with both artifacts built
    it copies two files and returns [None], not a count. *)
Lemma postbuild_returns_no_count :
  let act := PostBuild.copy_firmware_files [] [] sample_env (World built_tree []) in
  copied_lines (stdout act.1) = 2 ∧
  act.2 = Ok PyNone ∧
  ¬ ∃ n : Z, act.2 = Ok (PyInt n).
Proof.
  cbn zeta. split; [by vm_compute|]. split; [by vm_compute|].
  intros [n Hn]. vm_compute in Hn. discriminate Hn.
Qed.

(** Whatever the file system, a second run of the standalone routine leaves it
    as the first run left it, returns if the first returned, and reports no
    "file exists" error; and [mkdir] on a directory that is there succeeds
    without touching anything. *)
Lemma second_run_same_fs (f : string) (w : world) :
  let first := Standalone.copy_firmware_files f w in
  let second := Standalone.copy_firmware_files f first.1 in
  (∀ a, a ∈ Standalone.files_to_copy f →
        fs first.1 !! Entry.source a = fs w !! Entry.source a) ∧
  fs second.1 = fs first.1 ∧
  match first.2 with
  | Ok _ => ∃ n, second.2 = Ok (PyInt n)
  | Raise e => second.2 = Raise e
  end ∧
  (∀ file_name p,
     ErrorLine file_name (FileExistsError p) ∉ new_lines first.1 second.1) ∧
  (∀ p w0, isdir_in (fs w0) p = true → Path_mkdir p true w0 = (w0, Ok tt)).
Proof.
  cbn zeta. rewrite (standalone_run_spec f w).
  destruct (mkdir_outcome (fs w) (Standalone.firmware_dir f)) as [m1|e] eqn:Hmk;
    cbn [fst snd]; rewrite standalone_run_spec; cbn [fs stdout].
  - set (l := Standalone.files_to_copy f).
    assert (Hfd : loop_fs m1 l !! Standalone.firmware_dir f
                  = m1 !! Standalone.firmware_dir f).
    { rewrite standalone_firmware_dir. apply standalone_loop_other; path_neq. }
    rewrite (mkdir_outcome_existing (loop_fs m1 l))
      by (rewrite (isdir_in_agree _ _ _ Hfd); by eapply mkdir_outcome_isdir).
    cbn [fst snd fs]. split; [|split; [|split; [|split]]].
    + intros a Ha. subst l. rewrite standalone_files_to_copy in Ha |- *.
      rewrite <- standalone_files_to_copy.
      assert (Hsrc : Entry.source a ≠ Standalone.firmware_dir f ∧
                     loop_fs m1 (Standalone.files_to_copy f) !! Entry.source a
                     = m1 !! Entry.source a).
      { rewrite standalone_firmware_dir.
        apply elem_of_cons in Ha as [->|Ha];
          [|apply elem_of_cons in Ha as [->|Ha%elem_of_nil]; [|done]];
          (split; [cbn; path_neq|apply standalone_loop_other; cbn; path_neq]). }
      destruct Hsrc as [Hne ->]. by eapply mkdir_outcome_other.
    + apply standalone_loop_idem.
    + by eexists.
    + intros file_name p. rewrite new_lines_app. cbn [app].
      rewrite !elem_of_cons, elem_of_app.
      intros [?|[?|[?%loop_lines_not_exists|?%summary_no_error]]]; done.
    + intros p w0 Hd. rewrite Path_mkdir_spec, (mkdir_outcome_existing _ _ Hd).
      by rewrite world_eta.
  - rewrite Hmk. cbn [fst snd fs]. split; [done|]. split; [done|]. split; [done|]. split.
    + intros file_name p. rewrite new_lines_app.
      rewrite !elem_of_cons. by intros [?|[?|?%elem_of_nil]].
    + intros p w0 Hd. rewrite Path_mkdir_spec, (mkdir_outcome_existing _ _ Hd).
      by rewrite world_eta.
Qed.

Lemma standalone_sources_not_dir f a :
  a ∈ Standalone.files_to_copy f → Entry.source a ≠ Standalone.firmware_dir f.
Proof.
  rewrite standalone_files_to_copy, standalone_firmware_dir.
  intros [->|[->|?%elem_of_nil]%elem_of_cons]%elem_of_cons; [| |done]; cbn; path_neq.
Qed.

(** With no source there the loop skips both artifacts. *)
Lemma standalone_loop_nothing f m :
  Forall (λ a, exists_in m (Entry.source a) = false) (Standalone.files_to_copy f) →
  loop_fs m (Standalone.files_to_copy f) = m ∧
  loop_gain m (Standalone.files_to_copy f) = 0 ∧
  loop_lines m (Standalone.files_to_copy f)
  = [NotFoundLine "Main firmware" "firmware.bin";
     NotFoundLine "SPIFFS filesystem" "spiffs.bin"].
Proof.
  rewrite standalone_files_to_copy. rewrite !Forall_cons.
  intros (H1 & H2 & _). cbn [loop_fs loop_gain loop_lines].
  destruct (step_skips _ _ H1) as [-> ->].
  destruct (step_skips _ _ H2) as [-> ->].
  cbn [report gain firmware_bin spiffs_bin Entry.name Entry.source].
  by rewrite (name_app_snoc _ [".pio"; "build"; "esp32doit-devkit-v1"] "firmware.bin"),
    (name_app_snoc _ [".pio"; "build"; "esp32doit-devkit-v1"] "spiffs.bin").
Qed.

(** C6. When neither source file is there, the run writes no file: the file
    system is as before except that [firmware/] may have been made; nothing
    is counted as copied, the routine returns 0 (or stops at [mkdir], when the
    directory cannot be made, before it counts at all), and the standalone
    command exits with status 1. *)
Theorem nothing_to_copy (f : string) (w : world) :
  Forall (λ a, exists_in (fs w) (Entry.source a) = false) (Standalone.files_to_copy f) →
  let run := Standalone.copy_firmware_files f w in
  let fin := Standalone.main f w in
  let dir := Standalone.firmware_dir f in
  (∀ p, p ≠ dir → fs run.1 !! p = fs w !! p) ∧
  (fs run.1 !! dir = fs w !! dir ∨
   fs w !! dir = None ∧ fs run.1 !! dir = Some (Dir fresh_mode)) ∧
  copied_lines (new_lines w run.1) = 0 ∧
  match run.2 with
  | Ok v =>
      v = PyInt 0 ∧
      new_lines w run.1 =
        [Rule; CopyingLine;
         NotFoundLine "Main firmware" "firmware.bin";
         NotFoundLine "SPIFFS filesystem" "spiffs.bin";
         NoFilesLine; Rule]
  | Raise e => mkdir_outcome (fs w) dir = Raise e ∧ fs run.1 = fs w
  end ∧
  exit_status fin.2 = 1.
Proof.
  intros Habs. cbn zeta.
  rewrite standalone_main_spec, standalone_run_spec.
  destruct (mkdir_outcome (fs w) (Standalone.firmware_dir f)) as [m1|e] eqn:Hmk;
    cbn [fst snd fs] in *.
  - assert (Habs1 : Forall (λ a, exists_in m1 (Entry.source a) = false)
                      (Standalone.files_to_copy f)).
    { rewrite Forall_forall in *. intros a Ha. unfold exists_in.
      rewrite (mkdir_outcome_other _ _ _ _ Hmk (standalone_sources_not_dir _ _ Ha)).
      by apply Habs. }
    destruct (standalone_loop_nothing f m1 Habs1) as (Hfs & Hg & Hl).
    rewrite Hfs, Hg, Hl in *. rewrite new_lines_app in *.
    split; [intros p Hp; by eapply mkdir_outcome_other|].
    split; [|done].
    unfold mkdir_outcome in Hmk.
    destruct (fs w !! Standalone.firmware_dir f) as [[]|] eqn:Hd; simplify_eq;
      [left; by rewrite Hd|right].
    repeat case_match; simplify_eq. by rewrite lookup_insert_eq.
  - rewrite new_lines_app in *. split; [done|]. split; [by left|].
    split; [done|]. split; [done|].
    apply exit_status_OSError. by eapply mkdir_outcome_OSError.
Qed.

Lemma nothing_to_copy_witness :
  let w := World bare_tree [] in
  Forall (λ a, exists_in (fs w) (Entry.source a) = false)
    (Standalone.files_to_copy sample_file) ∧
  copied_lines (new_lines w (Standalone.copy_firmware_files sample_file w).1) = 0 ∧
  exit_status (Standalone.main sample_file w).2 = 1.
Proof.
  intros w.
  assert (H : Forall (λ a, exists_in (fs w) (Entry.source a) = false)
                (Standalone.files_to_copy sample_file))
    by check_all.
  split; [exact H|].
  pose proof (nothing_to_copy sample_file w H) as (_ & _ & Hc & _ & He).
  exact (conj Hc He).
Defined.

(** What the loop of the standalone script does when both sources can be read
    and both destinations written. *)
Lemma standalone_loop_both f m :
  readable_file m (Entry.source (firmware_bin f)) = true →
  readable_file m (Entry.source (spiffs_bin f)) = true →
  open_wb m (Entry.dest (firmware_bin f)) = Ok tt →
  open_wb m (Entry.dest (spiffs_bin f)) = Ok tt →
  ∃ n1 n2,
    m !! Entry.source (firmware_bin f) = Some n1 ∧
    m !! Entry.source (spiffs_bin f) = Some n2 ∧
    loop_fs m (Standalone.files_to_copy f)
    = <[Entry.dest (spiffs_bin f) := n2]> (<[Entry.dest (firmware_bin f) := n1]> m) ∧
    loop_gain m (Standalone.files_to_copy f) = 2 ∧
    loop_lines m (Standalone.files_to_copy f)
    = [CopiedLine "Main firmware" "firmware.bin" (st_size n1);
       CopiedLine "SPIFFS filesystem" "spiffs.bin" (st_size n2)].
Proof.
  intros Hr1 Hr2 Ho1 Ho2. rewrite standalone_files_to_copy.
  cbn [loop_fs loop_gain loop_lines].
  destruct (step_copies m (firmware_bin f) Hr1) as (n1 & Hs1 & Hf1 & Hg1);
    [cbn [firmware_bin Entry.source Entry.dest]; path_neq|exact Ho1|].
  rewrite Hf1, Hg1.
  set (m2 := <[Entry.dest (firmware_bin f) := n1]> m).
  assert (Hs2' : m2 !! Entry.source (spiffs_bin f) = m !! Entry.source (spiffs_bin f))
    by (apply lookup_insert_ne;
        cbn [firmware_bin spiffs_bin Entry.source Entry.dest]; path_neq).
  destruct (step_copies m2 (spiffs_bin f)) as (n2 & Hs2 & Hf2 & Hg2).
  - unfold readable_file in *. rewrite Hs2'. exact Hr2.
  - cbn [spiffs_bin Entry.source Entry.dest]. path_neq.
  - unfold m2. rewrite open_wb_frame; [exact Ho2| |].
    + cbn [firmware_bin spiffs_bin Entry.dest]. path_neq.
    + cbn [firmware_bin spiffs_bin Entry.dest].
      rewrite (parent_app_snoc _ ["firmware"] "spiffs.bin"). path_neq.
  - rewrite Hf2, Hg2. rewrite Hs2' in Hs2. exists n1, n2.
    split; [exact Hs1|]. split; [exact Hs2|]. split; [reflexivity|].
    split; [reflexivity|].
    cbn [report gain firmware_bin spiffs_bin Entry.name Entry.source].
    by rewrite (name_app_snoc _ [".pio"; "build"; "esp32doit-devkit-v1"] "firmware.bin"),
      (name_app_snoc _ [".pio"; "build"; "esp32doit-devkit-v1"] "spiffs.bin").
Qed.

Lemma standalone_dest_open f m m1 a :
  a ∈ Standalone.files_to_copy f →
  mkdir_outcome m (Standalone.firmware_dir f) = Ok m1 →
  dest_ready m (Standalone.firmware_dir f) (Entry.dest a) = true →
  open_wb m1 (Entry.dest a) = Ok tt.
Proof.
  rewrite standalone_files_to_copy, standalone_firmware_dir.
  intros Ha Hmk Hr. eapply dest_ready_open; [done| | |done].
  - apply elem_of_cons in Ha as [->|[->|?%elem_of_nil]%elem_of_cons]; [| |done]; cbn.
    + apply (parent_app_snoc _ ["firmware"] "firmware.bin").
    + apply (parent_app_snoc _ ["firmware"] "spiffs.bin").
  - apply elem_of_cons in Ha as [->|[->|?%elem_of_nil]%elem_of_cons]; [| |done]; cbn;
      path_neq.
Qed.

Lemma readable_file_agree m m' p :
  m !! p = m' !! p → readable_file m p = readable_file m' p.
Proof. unfold readable_file. by intros ->. Qed.

(** C1, as the code has it. When both source files are there and can be
    read, the destination directory is there or can be made, and each
    destination path can be written, the standalone routine copies both: each
    destination is then a regular file with the bytes and the mode, hence the
    byte length, of its source, the report shows both sizes, and the returned
    count is 2. *)
Theorem both_copied (f : string) (w : world) :
  Forall (λ a, readable_file (fs w) (Entry.source a) = true) (Standalone.files_to_copy f) →
  dir_ready (fs w) (Standalone.firmware_dir f) = true →
  Forall (λ a, dest_ready (fs w) (Standalone.firmware_dir f) (Entry.dest a) = true)
    (Standalone.files_to_copy f) →
  let run := Standalone.copy_firmware_files f w in
  run.2 = Ok (PyInt 2) ∧
  Forall (λ a, fs run.1 !! Entry.dest a = fs w !! Entry.source a ∧
               is_Some (contents (fs run.1) (Entry.dest a)) ∧
               st_size <$> fs run.1 !! Entry.dest a
               = st_size <$> fs w !! Entry.source a)
    (Standalone.files_to_copy f) ∧
  copied_lines (new_lines w run.1) = 2.
Proof.
  intros Hread Hdir Hdest. cbn zeta.
  rewrite standalone_run_spec. rewrite (mkdir_ready _ _ Hdir).
  pose proof (mkdir_ready _ _ Hdir) as Hmk.
  set (m1 := if isdir_in (fs w) (Standalone.firmware_dir f) then fs w
             else <[Standalone.firmware_dir f := Dir fresh_mode]> (fs w)) in *.
  assert (Hsame : ∀ a, a ∈ Standalone.files_to_copy f →
                       m1 !! Entry.source a = fs w !! Entry.source a).
  { intros a Ha. eapply mkdir_outcome_other; [done|].
    by apply standalone_sources_not_dir. }
  rewrite Forall_forall in Hread, Hdest.
  assert (H1 : firmware_bin f ∈ Standalone.files_to_copy f)
    by (rewrite standalone_files_to_copy; apply list_elem_of_here).
  assert (H2 : spiffs_bin f ∈ Standalone.files_to_copy f)
    by (rewrite standalone_files_to_copy; apply list_elem_of_further, list_elem_of_here).
  destruct (standalone_loop_both f m1) as (n1 & n2 & Hs1 & Hs2 & Hfs & Hg & Hl).
  { rewrite (readable_file_agree _ (fs w)); auto. }
  { rewrite (readable_file_agree _ (fs w)); auto. }
  { eapply standalone_dest_open; eauto. }
  { eapply standalone_dest_open; eauto. }
  cbn zeta. cbn [fst snd fs]. rewrite Hg, Hl, Hfs, new_lines_app.
  rewrite Hsame in Hs1, Hs2 by done.
  split; [done|]. split; [|done].
  rewrite standalone_files_to_copy. repeat apply Forall_cons_2; [| |apply Forall_nil_2].
  - rewrite lookup_insert_ne by (cbn; path_neq). rewrite lookup_insert_eq, Hs1.
    unfold readable_file in Hread. specialize (Hread _ H1). rewrite Hs1 in Hread.
    unfold contents. rewrite lookup_insert_ne by (cbn; path_neq). rewrite lookup_insert_eq.
    destruct n1; [by eauto|done].
  - rewrite lookup_insert_eq, Hs2.
    unfold readable_file in Hread. specialize (Hread _ H2). rewrite Hs2 in Hread.
    unfold contents. rewrite lookup_insert_eq.
    destruct n2; [by eauto|done].
Qed.

Lemma both_copied_witness :
  let w := World built_tree [] in
  Forall (λ a, readable_file (fs w) (Entry.source a) = true)
    (Standalone.files_to_copy sample_file) ∧
  dir_ready (fs w) (Standalone.firmware_dir sample_file) = true ∧
  Forall (λ a, dest_ready (fs w) (Standalone.firmware_dir sample_file) (Entry.dest a) = true)
    (Standalone.files_to_copy sample_file) ∧
  (Standalone.copy_firmware_files sample_file w).2 = Ok (PyInt 2).
Proof.
  intros w.
  assert (H1 : Forall (λ a, readable_file (fs w) (Entry.source a) = true)
                 (Standalone.files_to_copy sample_file)) by check_all.
  assert (H2 : dir_ready (fs w) (Standalone.firmware_dir sample_file) = true)
    by (vm_compute; reflexivity).
  assert (H3 : Forall (λ a, dest_ready (fs w) (Standalone.firmware_dir sample_file)
                              (Entry.dest a) = true)
                 (Standalone.files_to_copy sample_file)) by check_all.
  split; [exact H1|]. split; [exact H2|]. split; [exact H3|].
  exact (proj1 (both_copied sample_file w H1 H2 H3)).
Defined.

(** C1, as stated, fails: both sources are there and can be read, yet (1)
    with a regular file in the place of [firmware/] the routine raises and
    returns no count, and (2) with a read-only file at a destination it copies
    one artifact only and leaves the other destination with its old bytes. *)
Lemma readable_sources_not_enough :
  let w := World blocked_tree [] in
  let w' := World locked_tree [] in
  let run := Standalone.copy_firmware_files sample_file w in
  let run' := Standalone.copy_firmware_files sample_file w' in
  Forall (λ a, readable_file (fs w) (Entry.source a) = true)
    (Standalone.files_to_copy sample_file) ∧
  run.2 = Raise (FileExistsError (sample_project ++ ["firmware"])) ∧
  run.2 ≠ Ok (PyInt 2) ∧
  Forall (λ a, readable_file (fs w') (Entry.source a) = true)
    (Standalone.files_to_copy sample_file) ∧
  run'.2 = Ok (PyInt 1) ∧
  contents (fs run'.1) (Entry.dest (firmware_bin sample_file)) = Some [x00] ∧
  contents (fs w') (Entry.source (firmware_bin sample_file)) = Some firmware_image.
Proof.
  cbn zeta.
  split; [check_all|].
  split; [by vm_compute|].
  split; [by vm_compute|].
  split; [check_all|].
  split; [by vm_compute|].
  split; by vm_compute.
Qed.

(** What the loop does when only one of the two sources is there. *)
Lemma standalone_loop_firmware_only f m :
  readable_file m (Entry.source (firmware_bin f)) = true →
  exists_in m (Entry.source (spiffs_bin f)) = false →
  open_wb m (Entry.dest (firmware_bin f)) = Ok tt →
  ∃ n,
    m !! Entry.source (firmware_bin f) = Some n ∧
    loop_fs m (Standalone.files_to_copy f) = <[Entry.dest (firmware_bin f) := n]> m ∧
    loop_gain m (Standalone.files_to_copy f) = 1 ∧
    loop_lines m (Standalone.files_to_copy f)
    = [CopiedLine "Main firmware" "firmware.bin" (st_size n);
       NotFoundLine "SPIFFS filesystem" "spiffs.bin"].
Proof.
  intros Hr Hab Ho. rewrite standalone_files_to_copy.
  cbn [loop_fs loop_gain loop_lines].
  destruct (step_copies m (firmware_bin f) Hr) as (n & Hs & Hf & Hg);
    [cbn [firmware_bin Entry.source Entry.dest]; path_neq|exact Ho|].
  rewrite Hf, Hg.
  destruct (step_skips (<[Entry.dest (firmware_bin f) := n]> m) (spiffs_bin f))
    as [Hf2 Hg2].
  { unfold exists_in in *. rewrite lookup_insert_ne; [done|].
    cbn [firmware_bin spiffs_bin Entry.source Entry.dest]. path_neq. }
  rewrite Hf2, Hg2. exists n.
  split; [exact Hs|]. split; [reflexivity|]. split; [reflexivity|].
  cbn [report gain firmware_bin spiffs_bin Entry.name Entry.source].
  by rewrite (name_app_snoc _ [".pio"; "build"; "esp32doit-devkit-v1"] "firmware.bin"),
    (name_app_snoc _ [".pio"; "build"; "esp32doit-devkit-v1"] "spiffs.bin").
Qed.

Lemma standalone_loop_spiffs_only f m :
  exists_in m (Entry.source (firmware_bin f)) = false →
  readable_file m (Entry.source (spiffs_bin f)) = true →
  open_wb m (Entry.dest (spiffs_bin f)) = Ok tt →
  ∃ n,
    m !! Entry.source (spiffs_bin f) = Some n ∧
    loop_fs m (Standalone.files_to_copy f) = <[Entry.dest (spiffs_bin f) := n]> m ∧
    loop_gain m (Standalone.files_to_copy f) = 1 ∧
    loop_lines m (Standalone.files_to_copy f)
    = [NotFoundLine "Main firmware" "firmware.bin";
       CopiedLine "SPIFFS filesystem" "spiffs.bin" (st_size n)].
Proof.
  intros Hab Hr Ho. rewrite standalone_files_to_copy.
  cbn [loop_fs loop_gain loop_lines].
  destruct (step_skips m (firmware_bin f) Hab) as [Hf1 Hg1]. rewrite Hf1, Hg1.
  destruct (step_copies m (spiffs_bin f) Hr) as (n & Hs & Hf & Hg);
    [cbn [spiffs_bin Entry.source Entry.dest]; path_neq|exact Ho|].
  rewrite Hf, Hg. exists n.
  split; [exact Hs|]. split; [reflexivity|]. split; [reflexivity|].
  cbn [report gain firmware_bin spiffs_bin Entry.name Entry.source].
  by rewrite (name_app_snoc _ [".pio"; "build"; "esp32doit-devkit-v1"] "firmware.bin"),
    (name_app_snoc _ [".pio"; "build"; "esp32doit-devkit-v1"] "spiffs.bin").
Qed.

Lemma exists_in_agree m m' p : m !! p = m' !! p → exists_in m p = exists_in m' p.
Proof. unfold exists_in. by intros ->. Qed.

Lemma standalone_dests_differ f :
  Entry.dest (firmware_bin f) ≠ Entry.dest (spiffs_bin f) ∧
  Entry.dest (firmware_bin f) ≠ Standalone.firmware_dir f ∧
  Entry.dest (spiffs_bin f) ≠ Standalone.firmware_dir f.
Proof.
  rewrite standalone_firmware_dir. cbn [firmware_bin spiffs_bin Entry.dest].
  repeat split; path_neq.
Qed.

(** C4, as the code has it. When one of the two sources is there and can be
    read, the other is missing, the destination directory is there or can be
    made and the destination of the present artifact can be written, the
    routine reports the missing artifact as not found and reports no error,
    writes the present artifact's destination with the bytes of its source,
    leaves the other destination path as it was before the run (not there if
    it was not there), returns 1, and the command exits with status 0. *)
Theorem one_copied (f : string) (w : world) (a b : file_info) :
  [a; b] ≡ₚ Standalone.files_to_copy f →
  readable_file (fs w) (Entry.source a) = true →
  exists_in (fs w) (Entry.source b) = false →
  dir_ready (fs w) (Standalone.firmware_dir f) = true →
  dest_ready (fs w) (Standalone.firmware_dir f) (Entry.dest a) = true →
  let run := Standalone.copy_firmware_files f w in
  let fin := Standalone.main f w in
  run.2 = Ok (PyInt 1) ∧
  fs run.1 !! Entry.dest a = fs w !! Entry.source a ∧
  is_Some (contents (fs run.1) (Entry.dest a)) ∧
  fs run.1 !! Entry.dest b = fs w !! Entry.dest b ∧
  NotFoundLine (Entry.name b) (name (Entry.source b)) ∈ new_lines w run.1 ∧
  (∀ file_name e, ErrorLine file_name e ∉ new_lines w run.1) ∧
  copied_lines (new_lines w run.1) = 1 ∧
  exit_status fin.2 = 0.
Proof.
  intros Hperm Hread Habs Hdir Hdest. cbn zeta.
  rewrite standalone_main_spec, standalone_run_spec.
  pose proof (mkdir_ready _ _ Hdir) as Hmk. rewrite Hmk.
  set (m1 := if isdir_in (fs w) (Standalone.firmware_dir f) then fs w
             else <[Standalone.firmware_dir f := Dir fresh_mode]> (fs w)) in *.
  assert (Ha : a ∈ Standalone.files_to_copy f)
    by (rewrite <- Hperm; apply list_elem_of_here).
  assert (Hb : b ∈ Standalone.files_to_copy f)
    by (rewrite <- Hperm; apply list_elem_of_further, list_elem_of_here).
  assert (Hsa : m1 !! Entry.source a = fs w !! Entry.source a)
    by (eapply mkdir_outcome_other; [done|by apply standalone_sources_not_dir]).
  assert (Hsb : m1 !! Entry.source b = fs w !! Entry.source b)
    by (eapply mkdir_outcome_other; [done|by apply standalone_sources_not_dir]).
  assert (Hra : readable_file m1 (Entry.source a) = true)
    by (by rewrite (readable_file_agree _ _ _ Hsa)).
  assert (Hab : exists_in m1 (Entry.source b) = false)
    by (by rewrite (exists_in_agree _ _ _ Hsb)).
  assert (Hoa : open_wb m1 (Entry.dest a) = Ok tt)
    by (eapply standalone_dest_open; eauto).
  destruct (standalone_dests_differ f) as (Hne & Hne1 & Hne2).
  assert (Hfiles : ∃ n lines,
    m1 !! Entry.source a = Some n ∧
    loop_fs m1 (Standalone.files_to_copy f) = <[Entry.dest a := n]> m1 ∧
    loop_gain m1 (Standalone.files_to_copy f) = 1 ∧
    loop_lines m1 (Standalone.files_to_copy f) = lines ∧
    NotFoundLine (Entry.name b) (name (Entry.source b)) ∈ lines ∧
    (∀ file_name e, ErrorLine file_name e ∉ lines) ∧
    Entry.dest b ≠ Entry.dest a ∧ Entry.dest b ≠ Standalone.firmware_dir f).
  { apply Permutation_length_2_inv in Hperm.
    rewrite standalone_files_to_copy in Hperm.
    destruct Hperm as [Hperm|Hperm]; simplify_eq.
    - destruct (standalone_loop_firmware_only f m1 Hra Hab Hoa) as (n & ? & ? & ? & Hl).
      exists n, (loop_lines m1 (Standalone.files_to_copy f)).
      repeat split; try done.
      + rewrite Hl. cbn [spiffs_bin Entry.name Entry.source].
        rewrite (name_app_snoc _ [".pio"; "build"; "esp32doit-devkit-v1"] "spiffs.bin").
        apply list_elem_of_further, list_elem_of_here.
      + intros file_name e. rewrite Hl, !elem_of_cons. by intros [?|[?|?%elem_of_nil]].
    - destruct (standalone_loop_spiffs_only f m1 Hab Hra Hoa) as (n & ? & ? & ? & Hl).
      exists n, (loop_lines m1 (Standalone.files_to_copy f)).
      repeat split; try done.
      + rewrite Hl. cbn [firmware_bin Entry.name Entry.source].
        rewrite (name_app_snoc _ [".pio"; "build"; "esp32doit-devkit-v1"] "firmware.bin").
        apply list_elem_of_here.
      + intros file_name e. rewrite Hl, !elem_of_cons. by intros [?|[?|?%elem_of_nil]]. }
  destruct Hfiles as (n & lines & Hn & Hfs & Hg & Hl & Hnf & Hnoerr & Hdab & Hdb).
  cbn zeta. cbn [fst snd fs]. rewrite Hfs, Hg, Hl, new_lines_app.
  rewrite Hsa in Hn.
  split; [done|]. split; [by rewrite lookup_insert_eq|]. split.
  { unfold contents. rewrite lookup_insert_eq.
    unfold readable_file in Hread. rewrite Hn in Hread. destruct n; [by eauto|done]. }
  split.
  { rewrite lookup_insert_ne by done. by eapply mkdir_outcome_other. }
  split.
  { cbn [app]. do 2 apply list_elem_of_further. apply elem_of_app. by left. }
  split.
  { intros file_name e. cbn [app]. rewrite !elem_of_cons, elem_of_app.
    intros [?|[?|[?%Hnoerr|?%summary_no_error]]]; done. }
  split; [|done].
  pose proof (copied_lines_run [] m1 (Standalone.files_to_copy f)) as Hc.
  rewrite Hg, Hl in Hc. exact Hc.
Qed.

Lemma one_copied_witness :
  let w := World half_built_tree [] in
  let a := firmware_bin sample_file in
  let b := spiffs_bin sample_file in
  [a; b] ≡ₚ Standalone.files_to_copy sample_file ∧
  readable_file (fs w) (Entry.source a) = true ∧
  exists_in (fs w) (Entry.source b) = false ∧
  dir_ready (fs w) (Standalone.firmware_dir sample_file) = true ∧
  dest_ready (fs w) (Standalone.firmware_dir sample_file) (Entry.dest a) = true ∧
  (Standalone.copy_firmware_files sample_file w).2 = Ok (PyInt 1) ∧
  exit_status (Standalone.main sample_file w).2 = 0.
Proof.
  intros w a b.
  assert (H0 : [a; b] ≡ₚ Standalone.files_to_copy sample_file) by reflexivity.
  assert (H1 : readable_file (fs w) (Entry.source a) = true) by (vm_compute; reflexivity).
  assert (H2 : exists_in (fs w) (Entry.source b) = false) by (vm_compute; reflexivity).
  assert (H3 : dir_ready (fs w) (Standalone.firmware_dir sample_file) = true)
    by (vm_compute; reflexivity).
  assert (H4 : dest_ready (fs w) (Standalone.firmware_dir sample_file) (Entry.dest a)
               = true) by (vm_compute; reflexivity).
  pose proof (one_copied sample_file w a b H0 H1 H2 H3 H4) as (Hr & _ & _ & _ & _ & _ & _ & He).
  repeat (split; [assumption|]). exact He.
Defined.

(** C4, as stated, fails: with only the firmware image built and the
    file-system image of an earlier build still in [firmware/], the run copies
    one artifact, returns 1, and the other destination is there afterwards,
    not absent. *)
Lemma other_destination_stays :
  let w := World stale_tree [] in
  let run := Standalone.copy_firmware_files sample_file w in
  readable_file (fs w) (Entry.source (firmware_bin sample_file)) = true ∧
  exists_in (fs w) (Entry.source (spiffs_bin sample_file)) = false ∧
  run.2 = Ok (PyInt 1) ∧
  contents (fs run.1) (Entry.dest (spiffs_bin sample_file)) = Some spiffs_image ∧
  fs run.1 !! Entry.dest (spiffs_bin sample_file) ≠ None.
Proof.
  cbn zeta. repeat split; by vm_compute.
Qed.






(** * Beyond the claims: both scripts, any directories *)

(** ** The artifacts by directory *)

Lemma postbuild_files_to_copy B F :
  PostBuild.files_to_copy B F = [main_firmware B F; spiffs_filesystem B F].
Proof. reflexivity. Qed.

Lemma standalone_files_by_dir f :
  Standalone.files_to_copy f
  = PostBuild.files_to_copy (Standalone.build_dir f) (Standalone.firmware_dir f).
Proof. reflexivity. Qed.

Lemma last_differs (p q l r : path) c d : c ≠ d → p ++ l ++ [c] ≠ q ++ r ++ [d].
Proof.
  intros Hcd H. rewrite !app_assoc in H. by apply app_inj_tail in H as [_ ?].
Qed.

Lemma app_neq_self (p l : path) : l ≠ [] → p ++ l ≠ p.
Proof.
  intros Hl H. apply (f_equal length) in H. rewrite length_app in H.
  destruct l; [done|]. cbn in H. lia.
Qed.

(** Tells apart two paths by a common prefix, by their last components, or by
    one being a proper extension of the other. *)
Ltac paths_differ :=
  first
    [ path_neq
    | match goal with
      | |- ?p ++ ?l ≠ ?q ++ ?r =>
          let l1 := eval cbv in (removelast l) in
          let c := eval cbv in (List.last l EmptyString) in
          let r1 := eval cbv in (removelast r) in
          let d := eval cbv in (List.last r EmptyString) in
          apply (last_differs p q l1 r1 c d); discriminate
      end
    | apply app_neq_self; discriminate
    | apply not_eq_sym, app_neq_self; discriminate ].

Lemma name_of_snoc (p : path) c : name (p ++ [c]) = c.
Proof. unfold name. by rewrite last_last. Qed.

Lemma footprint_main_firmware B F :
  footprint (main_firmware B F) =
  [ B ++ ["firmware.bin"]; F ++ ["firmware.bin"];
    F ++ ["firmware.bin"; "firmware.bin"]; F; F ++ ["firmware.bin"] ].
Proof.
  unfold footprint, main_firmware. cbn [Entry.source Entry.dest]. cbn zeta.
  rewrite name_of_snoc.
  change (os_path_join ?d "firmware.bin") with (d ++ ["firmware.bin"]).
  rewrite !parent_snoc. by rewrite <- app_assoc.
Qed.

Lemma footprint_spiffs_filesystem B F :
  footprint (spiffs_filesystem B F) =
  [ B ++ ["spiffs.bin"]; F ++ ["spiffs.bin"];
    F ++ ["spiffs.bin"; "spiffs.bin"]; F; F ++ ["spiffs.bin"] ].
Proof.
  unfold footprint, spiffs_filesystem. cbn [Entry.source Entry.dest]. cbn zeta.
  rewrite name_of_snoc.
  change (os_path_join ?d "spiffs.bin") with (d ++ ["spiffs.bin"]).
  rewrite !parent_snoc. by rewrite <- app_assoc.
Qed.

Lemma targets_main_firmware B F :
  Entry.dest (main_firmware B F) = F ++ ["firmware.bin"] ∧
  os_path_join (Entry.dest (main_firmware B F)) (name (Entry.source (main_firmware B F)))
  = F ++ ["firmware.bin"; "firmware.bin"].
Proof.
  pose proof (footprint_main_firmware B F) as H. unfold footprint in H. cbn zeta in H.
  by simplify_eq.
Qed.

Lemma targets_spiffs_filesystem B F :
  Entry.dest (spiffs_filesystem B F) = F ++ ["spiffs.bin"] ∧
  os_path_join (Entry.dest (spiffs_filesystem B F))
    (name (Entry.source (spiffs_filesystem B F)))
  = F ++ ["spiffs.bin"; "spiffs.bin"].
Proof.
  pose proof (footprint_spiffs_filesystem B F) as H. unfold footprint in H. cbn zeta in H.
  by simplify_eq.
Qed.

Lemma spiffs_keeps_main_footprint B F m :
  agree_on (footprint (main_firmware B F)) m (step_fs m (spiffs_filesystem B F)).
Proof.
  unfold agree_on. rewrite footprint_main_firmware.
  destruct (targets_spiffs_filesystem B F) as [Hd Hj].
  repeat apply Forall_cons_2; [..|apply Forall_nil_2];
    symmetry; apply step_fs_other; rewrite ?Hj, ?Hd; paths_differ.
Qed.

Lemma main_keeps_spiffs_footprint B F m :
  agree_on (footprint (spiffs_filesystem B F)) m (step_fs m (main_firmware B F)).
Proof.
  unfold agree_on. rewrite footprint_spiffs_filesystem.
  destruct (targets_main_firmware B F) as [Hd Hj].
  repeat apply Forall_cons_2; [..|apply Forall_nil_2];
    symmetry; apply step_fs_other; rewrite ?Hj, ?Hd; paths_differ.
Qed.

(** ** The loop over the two artifacts, for any directories *)

Lemma dirs_loop_idem B F m :
  loop_fs (loop_fs m (PostBuild.files_to_copy B F)) (PostBuild.files_to_copy B F)
  = loop_fs m (PostBuild.files_to_copy B F).
Proof.
  rewrite postbuild_files_to_copy. cbn [loop_fs].
  set (m2 := step_fs m (main_firmware B F)).
  assert (H1 : step_fs (step_fs m2 (spiffs_filesystem B F)) (main_firmware B F)
               = step_fs m2 (spiffs_filesystem B F)).
  { apply (step_fs_stable_frame m2); [apply spiffs_keeps_main_footprint|].
    apply step_fs_idem. }
  rewrite H1. apply step_fs_idem.
Qed.

Lemma dirs_loop_other B F m p :
  p ∉ write_set F →
  loop_fs m (PostBuild.files_to_copy B F) !! p = m !! p.
Proof.
  unfold write_set. rewrite !not_elem_of_cons. intros (_ & H1 & H2 & H3 & H4 & _).
  rewrite postbuild_files_to_copy. cbn [loop_fs].
  destruct (targets_main_firmware B F) as [Hd1 Hj1].
  destruct (targets_spiffs_filesystem B F) as [Hd2 Hj2].
  rewrite step_fs_other by (by rewrite ?Hj2, ?Hd2).
  by rewrite step_fs_other by (by rewrite ?Hj1, ?Hd1).
Qed.

(** Each artifact gets the line it would get on its own. *)
Lemma dirs_loop_lines B F m :
  loop_lines m (PostBuild.files_to_copy B F)
  = [report (main_firmware B F) (step_outcome m (main_firmware B F));
     report (spiffs_filesystem B F) (step_outcome m (spiffs_filesystem B F))] ∧
  loop_gain m (PostBuild.files_to_copy B F)
  = gain (step_outcome m (main_firmware B F))
    + gain (step_outcome m (spiffs_filesystem B F)).
Proof.
  rewrite postbuild_files_to_copy. cbn [loop_lines loop_gain].
  rewrite <- (step_outcome_frame _ _ _ (main_keeps_spiffs_footprint B F m)).
  split; [done|lia].
Qed.

Lemma kept_refl n : kept n n.
Proof. by destruct n. Qed.

Lemma kept_trans n n' n'' : kept n n' → kept n' n'' → kept n n''.
Proof.
  destruct n; cbn.
  - destruct n'; [|done]. by intros _.
  - by intros ->.
Qed.

(** A turn of the loop removes nothing and turns no directory into a file or
    a file into a directory. *)
Lemma step_fs_kept m a p n :
  m !! p = Some n → ∃ n', step_fs m a !! p = Some n' ∧ kept n n'.
Proof.
  intros Hp. unfold step_fs.
  destruct (exists_in m (Entry.source a)); [|eauto using kept_refl].
  destruct (copy2_outcome m (Entry.source a) (Entry.dest a)) as [n1|e] eqn:Hc;
    [|eauto using kept_refl].
  set (t := copy2_target m (Entry.source a) (Entry.dest a)) in *.
  destruct (decide (p = t)) as [->|Hne];
    [|rewrite lookup_insert_ne by done; eauto using kept_refl].
  rewrite lookup_insert_eq. exists n1. split; [done|].
  unfold copy2_outcome in Hc. fold t in Hc.
  case_bool_decide; [done|].
  destruct (m !! Entry.source a) as [[data fm|]|]; try done.
  destruct (can_read fm); [|done].
  destruct (open_wb m t) as [[]|] eqn:Ho; [|done]. simplify_eq.
  unfold open_wb in Ho. rewrite Hp in Ho. by destruct n.
Qed.

Lemma loop_fs_kept m l p n :
  m !! p = Some n → ∃ n', loop_fs m l !! p = Some n' ∧ kept n n'.
Proof.
  revert m n. induction l as [|a l IH]; intros m n Hp; cbn [loop_fs];
    [eauto using kept_refl|].
  destruct (step_fs_kept m a p n Hp) as (n1 & H1 & Hk1).
  destruct (IH _ _ H1) as (n2 & H2 & Hk2). eauto using kept_trans.
Qed.

Lemma mkdir_outcome_kept m d m1 p n :
  mkdir_outcome m d = Ok m1 → m !! p = Some n → m1 !! p = Some n.
Proof.
  unfold mkdir_outcome. intros H Hp.
  repeat case_match; simplify_eq; try done.
  rewrite lookup_insert_ne; [done|congruence].
Qed.

Lemma mkdir_outcome_iff_ready m d :
  (∃ m1, mkdir_outcome m d = Ok m1) ↔ dir_ready m d = true.
Proof.
  split; [|intros H; rewrite (mkdir_ready _ _ H); eauto].
  unfold mkdir_outcome, dir_ready. intros [m1 H].
  repeat case_match; by simplify_eq.
Qed.

Lemma mkdir_outcome_at m d m1 :
  mkdir_outcome m d = Ok m1 →
  isdir_in m1 d = true ∧
  (m1 !! d = m !! d ∨ m !! d = None ∧ m1 !! d = Some (Dir fresh_mode)).
Proof.
  intros H. split; [by eapply mkdir_outcome_isdir|].
  unfold mkdir_outcome in H. repeat case_match; simplify_eq; auto.
  right. by rewrite lookup_insert_eq.
Qed.

(** What a turn does on a file system that agrees on its footprint. *)
Lemma step_fs_frame_eq m m' a :
  agree_on (footprint a) m m' →
  step_fs m' a =
  if exists_in m (Entry.source a) then
    match copy2_outcome m (Entry.source a) (Entry.dest a) with
    | Ok n => <[copy2_target m (Entry.source a) (Entry.dest a) := n]> m'
    | Raise _ => m'
    end
  else m'.
Proof.
  intros (He & Ht & Ho)%step_frame. unfold step_fs. by rewrite <- He, <- Ht, <- Ho.
Qed.

(** The two artifacts can be processed in either order. *)
Lemma dirs_steps_commute B F m :
  step_fs (step_fs m (main_firmware B F)) (spiffs_filesystem B F)
  = step_fs (step_fs m (spiffs_filesystem B F)) (main_firmware B F).
Proof.
  rewrite (step_fs_frame_eq m _ _ (main_keeps_spiffs_footprint B F m)).
  rewrite (step_fs_frame_eq m _ _ (spiffs_keeps_main_footprint B F m)).
  unfold step_fs.
  destruct (exists_in m (Entry.source (main_firmware B F)));
    destruct (exists_in m (Entry.source (spiffs_filesystem B F))); try done.
  destruct (copy2_outcome m (Entry.source (main_firmware B F)) _) as [n1|];
    destruct (copy2_outcome m (Entry.source (spiffs_filesystem B F)) _) as [n2|];
    try done.
  apply insert_insert_ne.
  destruct (targets_main_firmware B F) as [Hd1 Hj1].
  destruct (targets_spiffs_filesystem B F) as [Hd2 Hj2].
  destruct (copy2_target_cases m (Entry.source (main_firmware B F))
              (Entry.dest (main_firmware B F))) as [-> | ->];
    destruct (copy2_target_cases m (Entry.source (spiffs_filesystem B F))
                (Entry.dest (spiffs_filesystem B F))) as [-> | ->];
    rewrite ?Hj1, ?Hd1, ?Hj2, ?Hd2; paths_differ.
Qed.

Lemma dirs_loop_off_targets B F m p :
  p ≠ F ++ ["firmware.bin"] → p ≠ F ++ ["firmware.bin"; "firmware.bin"] →
  p ≠ F ++ ["spiffs.bin"] → p ≠ F ++ ["spiffs.bin"; "spiffs.bin"] →
  loop_fs m (PostBuild.files_to_copy B F) !! p = m !! p.
Proof.
  intros H1 H2 H3 H4. rewrite postbuild_files_to_copy. cbn [loop_fs].
  destruct (targets_main_firmware B F) as [Hd1 Hj1].
  destruct (targets_spiffs_filesystem B F) as [Hd2 Hj2].
  rewrite step_fs_other by (by rewrite ?Hj2, ?Hd2).
  by rewrite step_fs_other by (by rewrite ?Hj1, ?Hd1).
Qed.

Lemma dirs_loop_keeps_dir B F m :
  loop_fs m (PostBuild.files_to_copy B F) !! F = m !! F.
Proof. apply dirs_loop_off_targets; paths_differ. Qed.

Lemma report_line_about m a :
  line_about (Entry.name a) (name (Entry.source a)) (report a (step_outcome m a)).
Proof.
  unfold step_outcome.
  destruct (exists_in m (Entry.source a)); [|done].
  destruct (copy2_outcome m (Entry.source a) (Entry.dest a)) as [n|e] eqn:Hc; [done|].
  split; [done|]. by eapply copy2_outcome_OSError.
Qed.

(** The lines of a run that got past [mkdir], for any directories. *)
Lemma dirs_report B F m :
  ∃ l1 l2,
    [Rule; CopyingLine] ++ loop_lines m (PostBuild.files_to_copy B F)
      ++ summary (loop_gain m (PostBuild.files_to_copy B F))
    = [Rule; CopyingLine; l1; l2] ++ summary (copied_lines [l1; l2]) ∧
    line_about "Main firmware" "firmware.bin" l1 ∧
    line_about "SPIFFS filesystem" "spiffs.bin" l2.
Proof.
  destruct (dirs_loop_lines B F m) as [Hl Hg].
  pose proof (copied_lines_loop m (PostBuild.files_to_copy B F)) as Hc.
  rewrite Hl in Hc |- *. rewrite <- Hc.
  do 2 eexists. split; [reflexivity|]. split.
  - pose proof (report_line_about m (main_firmware B F)) as H.
    cbn [main_firmware Entry.name Entry.source] in H. by rewrite name_of_snoc in H.
  - pose proof (report_line_about m (spiffs_filesystem B F)) as H.
    cbn [spiffs_filesystem Entry.name Entry.source] in H. by rewrite name_of_snoc in H.
Qed.

(** X1. The report of either script is fixed in shape: the rule and the
    heading; then, if [mkdir] went through, one line for the main firmware
    and one for the file-system image, in this order, each saying copied, not
    found or an [OSError]; then the count of the copied lines with the "ready"
    line, or the "no files" line when that count is 0; then the rule.  A run
    that raises has printed the rule and the heading only. *)
Theorem report_shape :
  (∀ f w,
     let run := Standalone.copy_firmware_files f w in
     match run.2 with
     | Ok _ =>
         ∃ l1 l2,
           new_lines w run.1
           = [Rule; CopyingLine; l1; l2] ++ summary (copied_lines [l1; l2]) ∧
           line_about "Main firmware" "firmware.bin" l1 ∧
           line_about "SPIFFS filesystem" "spiffs.bin" l2
     | Raise _ => new_lines w run.1 = [Rule; CopyingLine]
     end) ∧
  (∀ s t env w,
     let act := PostBuild.copy_firmware_files s t env w in
     match act.2 with
     | Ok _ =>
         ∃ l1 l2,
           new_lines w act.1
           = [Rule; CopyingLine; l1; l2] ++ summary (copied_lines [l1; l2]) ∧
           line_about "Main firmware" "firmware.bin" l1 ∧
           line_about "SPIFFS filesystem" "spiffs.bin" l2
     | Raise _ => new_lines w act.1 = [Rule; CopyingLine]
     end).
Proof.
  split.
  - intros f w. cbn zeta. rewrite standalone_run_spec.
    destruct (mkdir_outcome _ _) as [m1|e]; cbn [fst snd]; rewrite new_lines_app; [|done].
    rewrite standalone_files_by_dir. apply dirs_report.
  - intros s t env w. cbn zeta. rewrite postbuild_run_spec. cbn zeta.
    destruct (env !! "PROJECT_DIR") as [pd|]; cbn [fst snd];
      [|by rewrite new_lines_app].
    destruct (env !! "PIOENV") as [pe|]; cbn [fst snd]; [|by rewrite new_lines_app].
    destruct (mkdir_outcome _ _) as [m1|e]; cbn [fst snd]; rewrite new_lines_app; [|done].
    apply dirs_report.
Qed.

(** X2. Either script returns exactly when [firmware/] is a directory or can
    be made (and, for the post-build action, the environment has PROJECT_DIR
    and PIOENV); a run that raises has left the file system untouched, and
    what it raises is the [OSError] of [mkdir] or the [KeyError] of the
    missing entry, PROJECT_DIR first. *)
Theorem abort_leaves_no_trace :
  (∀ f w,
     let run := Standalone.copy_firmware_files f w in
     ((∃ v, run.2 = Ok v) ↔ dir_ready (fs w) (Standalone.firmware_dir f) = true) ∧
     (∀ e, run.2 = Raise e → is_OSError e = true ∧ fs run.1 = fs w)) ∧
  (∀ s t (env : gmap string string) w,
     let act := PostBuild.copy_firmware_files s t env w in
     ((∃ v, act.2 = Ok v) ↔
      ∃ PROJECT_DIR PIOENV,
        env !! "PROJECT_DIR" = Some PROJECT_DIR ∧ env !! "PIOENV" = Some PIOENV ∧
        dir_ready (fs w) (post_firmware_dir PROJECT_DIR) = true) ∧
     (∀ e, act.2 = Raise e →
           fs act.1 = fs w ∧
           (is_OSError e = true ∨
            e = match env !! "PROJECT_DIR" with
                | Some _ => KeyError "PIOENV"
                | None => KeyError "PROJECT_DIR"
                end))).
Proof.
  split.
  - intros f w. cbn zeta. rewrite standalone_run_spec.
    rewrite <- mkdir_outcome_iff_ready.
    destruct (mkdir_outcome _ _) as [m1|e] eqn:Hmk; cbn [fst snd fs].
    + split; [split; eauto|done].
    + split; [split; [by intros [? ?]|by intros [? ?]]|].
      intros ? [= <-]. split; [by eapply mkdir_outcome_OSError|done].
  - intros s t env w. cbn zeta. rewrite postbuild_run_spec. cbn zeta.
    destruct (env !! "PROJECT_DIR") as [pd|]; cbn [fst snd fs].
    2:{ split; [split; [by intros [? ?]|by intros (? & ? & ? & _)]|].
        intros ? [= <-]. auto. }
    destruct (env !! "PIOENV") as [pe|]; cbn [fst snd fs].
    2:{ split; [split; [by intros [? ?]|by intros (? & ? & _ & ? & _)]|].
        intros ? [= <-]. auto. }
    fold (post_firmware_dir pd).
    destruct (mkdir_outcome _ _) as [m1|e] eqn:Hmk; cbn [fst snd fs].
    + split; [|done]. split; [|eauto]. intros _. exists pd, pe.
      repeat split. apply mkdir_outcome_iff_ready. eauto.
    + split.
      * split; [by intros [? ?]|]. intros (? & ? & [= <-] & _ & Hr).
        apply mkdir_outcome_iff_ready in Hr as [? Hr]. congruence.
      * intros ? [= <-]. split; [done|]. left. by eapply mkdir_outcome_OSError.
Qed.

Lemma abort_leaves_no_trace_witness :
  let w := World root_only [] in
  let run := Standalone.copy_firmware_files sample_file w in
  let act := PostBuild.copy_firmware_files [] [] ∅ w in
  run.2 = Raise (FileNotFoundError (Standalone.firmware_dir sample_file)) ∧
  fs run.1 = fs w ∧
  act.2 = Raise (KeyError "PROJECT_DIR") ∧
  fs act.1 = fs w.
Proof.
  intros w run act.
  assert (H1 : run.2 = Raise (FileNotFoundError (Standalone.firmware_dir sample_file)))
    by (vm_compute; reflexivity).
  assert (H2 : act.2 = Raise (KeyError "PROJECT_DIR")) by (vm_compute; reflexivity).
  split; [exact H1|].
  split; [exact (proj2 (proj2 (proj1 abort_leaves_no_trace sample_file w) _ H1))|].
  split; [exact H2|].
  exact (proj1 (proj2 (proj2 abort_leaves_no_trace [] [] ∅ w) _ H2)).
Defined.

(** The file system after a run that got past [mkdir], for any directories. *)
Lemma dirs_run_frame B F m m1 p :
  mkdir_outcome m F = Ok m1 →
  p ∉ write_set F →
  loop_fs m1 (PostBuild.files_to_copy B F) !! p = m !! p.
Proof.
  intros Hmk Hp. rewrite dirs_loop_other by done.
  eapply mkdir_outcome_other; [done|].
  unfold write_set in Hp. by apply not_elem_of_cons in Hp as [? _].
Qed.

(** X3. Neither script touches anything outside its write set: every path
    other than [firmware/], the two destinations, and the place inside a
    destination that is a directory, holds after the run exactly the node it
    held before; this covers the project tree, the build directory and the
    sources (for the post-build action, whatever PIOENV says). *)
Theorem writes_only_in_firmware_dir :
  (∀ f w p,
     p ∉ write_set (Standalone.firmware_dir f) →
     fs (Standalone.copy_firmware_files f w).1 !! p = fs w !! p) ∧
  (∀ s t (env : gmap string string) w p,
     (∀ PROJECT_DIR, env !! "PROJECT_DIR" = Some PROJECT_DIR →
                     p ∉ write_set (post_firmware_dir PROJECT_DIR)) →
     fs (PostBuild.copy_firmware_files s t env w).1 !! p = fs w !! p).
Proof.
  split.
  - intros f w p Hp. rewrite standalone_run_spec.
    destruct (mkdir_outcome _ _) as [m1|e] eqn:Hmk; cbn [fst fs]; [|done].
    rewrite standalone_files_by_dir. by eapply dirs_run_frame.
  - intros s t env w p Hp. rewrite postbuild_run_spec. cbn zeta.
    destruct (env !! "PROJECT_DIR") as [pd|]; cbn [fst fs]; [|done].
    destruct (env !! "PIOENV") as [pe|]; cbn [fst fs]; [|done].
    fold (post_firmware_dir pd).
    destruct (mkdir_outcome _ _) as [m1|e] eqn:Hmk; cbn [fst fs]; [|done].
    eapply dirs_run_frame; eauto.
Qed.

Lemma writes_only_in_firmware_dir_witness :
  let w := World built_tree [] in
  let p := Entry.source (firmware_bin sample_file) in
  (p ∉ write_set (Standalone.firmware_dir sample_file)) ∧
  fs (Standalone.copy_firmware_files sample_file w).1 !! p = fs w !! p.
Proof.
  intros w p.
  assert (H : p ∉ write_set (Standalone.firmware_dir sample_file)).
  { unfold write_set. rewrite !not_elem_of_cons.
    repeat split; [..|apply not_elem_of_nil];
      intros Heq; vm_compute in Heq; discriminate Heq. }
  split; [exact H|].
  exact (proj1 writes_only_in_firmware_dir sample_file w p H).
Defined.

(** X4. After a run of either script that returns, [firmware/] is a
    directory: the one that was there, untouched, or a new one with the
    default mode when nothing was there. *)
Theorem firmware_dir_is_there :
  (∀ f w,
     let run := Standalone.copy_firmware_files f w in
     let dir := Standalone.firmware_dir f in
     (∃ v, run.2 = Ok v) →
     isdir_in (fs run.1) dir = true ∧
     (fs run.1 !! dir = fs w !! dir ∨
      fs w !! dir = None ∧ fs run.1 !! dir = Some (Dir fresh_mode))) ∧
  (∀ s t (env : gmap string string) PROJECT_DIR w,
     let act := PostBuild.copy_firmware_files s t env w in
     let dir := post_firmware_dir PROJECT_DIR in
     env !! "PROJECT_DIR" = Some PROJECT_DIR →
     (∃ v, act.2 = Ok v) →
     isdir_in (fs act.1) dir = true ∧
     (fs act.1 !! dir = fs w !! dir ∨
      fs w !! dir = None ∧ fs act.1 !! dir = Some (Dir fresh_mode))).
Proof.
  split.
  - intros f w. cbn zeta. rewrite standalone_run_spec.
    destruct (mkdir_outcome _ _) as [m1|e] eqn:Hmk; cbn [fst snd fs];
      [|by intros [? ?]].
    intros _. rewrite standalone_files_by_dir.
    unfold isdir_in. rewrite dirs_loop_keeps_dir.
    by apply mkdir_outcome_at.
  - intros s t env pd w. cbn zeta. rewrite postbuild_run_spec. cbn zeta.
    intros ->. destruct (env !! "PIOENV") as [pe|]; cbn [fst snd fs];
      [|by intros [? ?]].
    fold (post_firmware_dir pd).
    destruct (mkdir_outcome _ _) as [m1|e] eqn:Hmk; cbn [fst snd fs];
      [|by intros [? ?]].
    intros _. unfold isdir_in. rewrite dirs_loop_keeps_dir.
    by apply mkdir_outcome_at.
Qed.

Lemma firmware_dir_is_there_witness :
  let w := World bare_tree [] in
  let run := Standalone.copy_firmware_files sample_file w in
  (∃ v, run.2 = Ok v) ∧
  isdir_in (fs run.1) (Standalone.firmware_dir sample_file) = true.
Proof.
  intros w run.
  assert (H : ∃ v, run.2 = Ok v) by (exists (PyInt 0); vm_compute; reflexivity).
  split; [exact H|].
  exact (proj1 (proj1 firmware_dir_is_there sample_file w H)).
Defined.

(** X5. Neither script ever removes a node or changes its kind: whatever was
    there before the run is there after it, a directory untouched and a
    regular file still a regular file. *)
Theorem never_deletes :
  (∀ f w p n,
     fs w !! p = Some n →
     ∃ n', fs (Standalone.copy_firmware_files f w).1 !! p = Some n' ∧ kept n n') ∧
  (∀ s t env w p n,
     fs w !! p = Some n →
     ∃ n', fs (PostBuild.copy_firmware_files s t env w).1 !! p = Some n' ∧ kept n n').
Proof.
  split.
  - intros f w p n Hp. rewrite standalone_run_spec.
    destruct (mkdir_outcome _ _) as [m1|e] eqn:Hmk; cbn [fst fs];
      [|eauto using kept_refl].
    apply loop_fs_kept. by eapply mkdir_outcome_kept.
  - intros s t env w p n Hp. rewrite postbuild_run_spec. cbn zeta.
    destruct (env !! "PROJECT_DIR") as [pd|]; cbn [fst fs]; [|eauto using kept_refl].
    destruct (env !! "PIOENV") as [pe|]; cbn [fst fs]; [|eauto using kept_refl].
    destruct (mkdir_outcome _ _) as [m1|e] eqn:Hmk; cbn [fst fs];
      [|eauto using kept_refl].
    apply loop_fs_kept. by eapply mkdir_outcome_kept.
Qed.

Lemma never_deletes_witness :
  let w := World stale_tree [] in
  let p := sample_project ++ ["firmware"; "spiffs.bin"] in
  fs w !! p = Some (File spiffs_image rw) ∧
  ∃ n', fs (Standalone.copy_firmware_files sample_file w).1 !! p = Some n'
        ∧ kept (File spiffs_image rw) n'.
Proof.
  intros w p.
  assert (H : fs w !! p = Some (File spiffs_image rw)) by (vm_compute; reflexivity).
  split; [exact H|].
  exact (proj1 never_deletes sample_file w p _ H).
Defined.

(** X6. The post-build action is idempotent for every environment and file
    system: run a second time on what the first run left, it leaves the same
    file system and ends the same way ([None], or the same exception). *)
Theorem postbuild_second_run_idempotent (s t : list path) (env : gmap string string)
    (w : world) :
  let first := PostBuild.copy_firmware_files s t env w in
  let second := PostBuild.copy_firmware_files s t env first.1 in
  fs second.1 = fs first.1 ∧ second.2 = first.2.
Proof.
  cbn zeta. rewrite (postbuild_run_spec s t env w). cbn zeta.
  destruct (env !! "PROJECT_DIR") as [pd|] eqn:Hpd; cbn [fst snd];
    [|rewrite postbuild_run_spec; cbn zeta; by rewrite Hpd].
  destruct (env !! "PIOENV") as [pe|] eqn:Hpe; cbn [fst snd];
    [|rewrite postbuild_run_spec; cbn zeta; by rewrite Hpd, Hpe].
  destruct (mkdir_outcome _ _) as [m1|e] eqn:Hmk; cbn [fst snd];
    rewrite postbuild_run_spec; cbn zeta; rewrite Hpd, Hpe; cbn [fs stdout];
    [|by rewrite Hmk].
  rewrite (mkdir_outcome_existing (loop_fs m1 _)).
  - cbn [fst snd fs]. split; [apply dirs_loop_idem|done].
  - unfold isdir_in. rewrite dirs_loop_keeps_dir.
    by eapply mkdir_outcome_isdir.
Qed.

Lemma post_firmware_dir_snoc pd : post_firmware_dir pd = Path pd ++ ["firmware"].
Proof. reflexivity. Qed.

Lemma dirs_sources_not_dir B Q a :
  a ∈ PostBuild.files_to_copy B (Q ++ ["firmware"]) → Entry.source a ≠ Q ++ ["firmware"].
Proof.
  rewrite postbuild_files_to_copy.
  intros [->|[->|?%elem_of_nil]%elem_of_cons]%elem_of_cons; [| |done];
    cbn [main_firmware spiffs_filesystem Entry.source]; paths_differ.
Qed.

Lemma dirs_loop_nothing B F m :
  Forall (λ a, exists_in m (Entry.source a) = false) (PostBuild.files_to_copy B F) →
  loop_fs m (PostBuild.files_to_copy B F) = m ∧
  loop_gain m (PostBuild.files_to_copy B F) = 0 ∧
  loop_lines m (PostBuild.files_to_copy B F)
  = [NotFoundLine "Main firmware" "firmware.bin";
     NotFoundLine "SPIFFS filesystem" "spiffs.bin"].
Proof.
  rewrite postbuild_files_to_copy. rewrite !Forall_cons.
  intros (H1 & H2 & _). cbn [loop_fs loop_gain loop_lines].
  destruct (step_skips _ _ H1) as [-> ->].
  destruct (step_skips _ _ H2) as [-> ->].
  cbn [report gain main_firmware spiffs_filesystem Entry.name Entry.source].
  by rewrite !name_of_snoc.
Qed.

(** X7. With PROJECT_DIR and PIOENV set, neither source there and
    [firmware/] there or makeable, the post-build action reports both
    artifacts as not found, writes no file, and still returns [None]: the
    build system is told nothing went wrong. *)
Theorem postbuild_nothing_to_copy (s t : list path) (env : gmap string string)
    (PROJECT_DIR PIOENV : string) (w : world) :
  env !! "PROJECT_DIR" = Some PROJECT_DIR →
  env !! "PIOENV" = Some PIOENV →
  Forall (λ a, exists_in (fs w) (Entry.source a) = false)
    (PostBuild.files_to_copy (post_build_dir PROJECT_DIR PIOENV)
       (post_firmware_dir PROJECT_DIR)) →
  dir_ready (fs w) (post_firmware_dir PROJECT_DIR) = true →
  let act := PostBuild.copy_firmware_files s t env w in
  act.2 = Ok PyNone ∧
  new_lines w act.1 =
    [Rule; CopyingLine;
     NotFoundLine "Main firmware" "firmware.bin";
     NotFoundLine "SPIFFS filesystem" "spiffs.bin";
     NoFilesLine; Rule] ∧
  (∀ p, p ≠ post_firmware_dir PROJECT_DIR → fs act.1 !! p = fs w !! p).
Proof.
  intros Hpd Hpe Habs Hdir. cbn zeta. rewrite postbuild_run_spec, Hpd, Hpe. cbn zeta.
  fold (post_firmware_dir PROJECT_DIR) (post_build_dir PROJECT_DIR PIOENV).
  pose proof (mkdir_ready _ _ Hdir) as Hmk. rewrite Hmk.
  set (m1 := if isdir_in (fs w) (post_firmware_dir PROJECT_DIR) then fs w
             else <[post_firmware_dir PROJECT_DIR := Dir fresh_mode]> (fs w)) in *.
  assert (Habs1 : Forall (λ a, exists_in m1 (Entry.source a) = false)
                    (PostBuild.files_to_copy (post_build_dir PROJECT_DIR PIOENV)
                       (post_firmware_dir PROJECT_DIR))).
  { rewrite Forall_forall in *. intros a Ha. unfold exists_in.
    rewrite (mkdir_outcome_other _ _ _ _ Hmk); [by apply Habs|].
    rewrite post_firmware_dir_snoc in *. by eapply dirs_sources_not_dir. }
  destruct (dirs_loop_nothing _ _ m1 Habs1) as (Hfs & Hg & Hl).
  rewrite Hfs, Hg, Hl. cbn [fst snd fs]. rewrite new_lines_app.
  split; [done|]. split; [done|].
  intros p Hp. by eapply mkdir_outcome_other.
Qed.

Lemma postbuild_nothing_to_copy_witness :
  let w := World bare_tree [] in
  sample_env !! "PROJECT_DIR" = Some "/home/proj" ∧
  sample_env !! "PIOENV" = Some "esp32doit-devkit-v1" ∧
  Forall (λ a, exists_in (fs w) (Entry.source a) = false)
    (PostBuild.files_to_copy (post_build_dir "/home/proj" "esp32doit-devkit-v1")
       (post_firmware_dir "/home/proj")) ∧
  dir_ready (fs w) (post_firmware_dir "/home/proj") = true ∧
  (PostBuild.copy_firmware_files [] [] sample_env w).2 = Ok PyNone.
Proof.
  intros w.
  assert (H1 : sample_env !! "PROJECT_DIR" = Some "/home/proj") by reflexivity.
  assert (H2 : sample_env !! "PIOENV" = Some "esp32doit-devkit-v1") by reflexivity.
  assert (H3 : Forall (λ a, exists_in (fs w) (Entry.source a) = false)
                 (PostBuild.files_to_copy
                    (post_build_dir "/home/proj" "esp32doit-devkit-v1")
                    (post_firmware_dir "/home/proj"))) by check_all.
  assert (H4 : dir_ready (fs w) (post_firmware_dir "/home/proj") = true)
    by (vm_compute; reflexivity).
  repeat (split; [assumption|]).
  exact (proj1 (postbuild_nothing_to_copy [] [] sample_env _ _ w H1 H2 H3 H4)).
Defined.

Lemma snoc_differs (p q : path) c : p ≠ q → p ++ [c] ≠ q ++ [c].
Proof. intros Hpq H. by apply app_inj_tail in H as [? _]. Qed.

(** What the loop does, for any two different directories, when both sources
    can be read and both destinations written. *)
Lemma dirs_loop_both B F m :
  B ≠ F →
  readable_file m (B ++ ["firmware.bin"]) = true →
  readable_file m (B ++ ["spiffs.bin"]) = true →
  open_wb m (F ++ ["firmware.bin"]) = Ok tt →
  open_wb m (F ++ ["spiffs.bin"]) = Ok tt →
  ∃ n1 n2,
    m !! (B ++ ["firmware.bin"]) = Some n1 ∧
    m !! (B ++ ["spiffs.bin"]) = Some n2 ∧
    loop_fs m (PostBuild.files_to_copy B F)
    = <[F ++ ["spiffs.bin"] := n2]> (<[F ++ ["firmware.bin"] := n1]> m) ∧
    loop_gain m (PostBuild.files_to_copy B F) = 2 ∧
    loop_lines m (PostBuild.files_to_copy B F)
    = [CopiedLine "Main firmware" "firmware.bin" (st_size n1);
       CopiedLine "SPIFFS filesystem" "spiffs.bin" (st_size n2)].
Proof.
  intros HBF Hr1 Hr2 Ho1 Ho2. rewrite postbuild_files_to_copy.
  cbn [loop_fs loop_gain loop_lines].
  destruct (step_copies m (main_firmware B F) Hr1) as (n1 & Hs1 & Hf1 & Hg1);
    [cbn [main_firmware Entry.source Entry.dest]; by apply snoc_differs|exact Ho1|].
  rewrite Hf1, Hg1. cbn [main_firmware Entry.source Entry.dest] in *.
  set (m2 := <[F ++ ["firmware.bin"] := n1]> m).
  assert (Hs2' : m2 !! (B ++ ["spiffs.bin"]) = m !! (B ++ ["spiffs.bin"]))
    by (apply lookup_insert_ne; paths_differ).
  destruct (step_copies m2 (spiffs_filesystem B F)) as (n2 & Hs2 & Hf2 & Hg2).
  - cbn [spiffs_filesystem Entry.source]. unfold readable_file in *.
    rewrite Hs2'. exact Hr2.
  - cbn [spiffs_filesystem Entry.source Entry.dest]. by apply snoc_differs.
  - cbn [spiffs_filesystem Entry.dest]. unfold m2.
    rewrite open_wb_frame; [exact Ho2|paths_differ|].
    rewrite parent_snoc. paths_differ.
  - rewrite Hf2, Hg2. cbn [spiffs_filesystem Entry.source Entry.dest] in *.
    rewrite Hs2' in Hs2. exists n1, n2.
    split; [exact Hs1|]. split; [exact Hs2|]. split; [reflexivity|].
    split; [reflexivity|].
    cbn [report gain main_firmware spiffs_filesystem Entry.name Entry.source].
    by rewrite !name_of_snoc.
Qed.

(** X8. With PROJECT_DIR and PIOENV set, a build directory that is not
    [firmware/] itself, both sources there as readable regular files,
    [firmware/] there or makeable and both destinations writable, the
    post-build action copies both artifacts: each destination holds the node
    (bytes and mode) of its source, the report shows both sizes and the count
    2, and the action returns [None]. *)
Theorem postbuild_both_copied (s t : list path) (env : gmap string string)
    (PROJECT_DIR PIOENV : string) (w : world) :
  let build_dir := post_build_dir PROJECT_DIR PIOENV in
  let firmware_dir := post_firmware_dir PROJECT_DIR in
  env !! "PROJECT_DIR" = Some PROJECT_DIR →
  env !! "PIOENV" = Some PIOENV →
  build_dir ≠ firmware_dir →
  Forall (λ a, readable_file (fs w) (Entry.source a) = true)
    (PostBuild.files_to_copy build_dir firmware_dir) →
  dir_ready (fs w) firmware_dir = true →
  Forall (λ a, dest_ready (fs w) firmware_dir (Entry.dest a) = true)
    (PostBuild.files_to_copy build_dir firmware_dir) →
  let act := PostBuild.copy_firmware_files s t env w in
  act.2 = Ok PyNone ∧
  Forall (λ a, fs act.1 !! Entry.dest a = fs w !! Entry.source a)
    (PostBuild.files_to_copy build_dir firmware_dir) ∧
  ∃ size1 size2,
    new_lines w act.1 =
      [Rule; CopyingLine;
       CopiedLine "Main firmware" "firmware.bin" size1;
       CopiedLine "SPIFFS filesystem" "spiffs.bin" size2;
       SuccessLine 2; ReadyLine; Rule] ∧
    Some size1 = st_size <$> fs w !! (build_dir ++ ["firmware.bin"]) ∧
    Some size2 = st_size <$> fs w !! (build_dir ++ ["spiffs.bin"]).
Proof.
  intros B F Hpd Hpe HBF Hread Hdir Hdest. cbn zeta.
  rewrite postbuild_run_spec, Hpd, Hpe. cbn zeta.
  fold (post_firmware_dir PROJECT_DIR) (post_build_dir PROJECT_DIR PIOENV).
  fold B F. pose proof (mkdir_ready _ _ Hdir) as Hmk. rewrite Hmk.
  set (m1 := if isdir_in (fs w) F then fs w else <[F := Dir fresh_mode]> (fs w)) in *.
  rewrite postbuild_files_to_copy in Hread, Hdest.
  rewrite !Forall_cons in Hread, Hdest.
  destruct Hread as (Hr1 & Hr2 & _). destruct Hdest as (Hd1 & Hd2 & _).
  cbn [main_firmware spiffs_filesystem Entry.source Entry.dest] in *.
  assert (HF : F = Path PROJECT_DIR ++ ["firmware"]) by reflexivity.
  assert (Hs1 : m1 !! (B ++ ["firmware.bin"]) = fs w !! (B ++ ["firmware.bin"])).
  { eapply mkdir_outcome_other; [done|]. rewrite HF. paths_differ. }
  assert (Hs2 : m1 !! (B ++ ["spiffs.bin"]) = fs w !! (B ++ ["spiffs.bin"])).
  { eapply mkdir_outcome_other; [done|]. rewrite HF. paths_differ. }
  destruct (dirs_loop_both B F m1 HBF) as (n1 & n2 & Hn1 & Hn2 & Hfs & Hg & Hl).
  { by rewrite (readable_file_agree _ _ _ Hs1). }
  { by rewrite (readable_file_agree _ _ _ Hs2). }
  { eapply dest_ready_open; [done|apply parent_snoc|paths_differ|done]. }
  { eapply dest_ready_open; [done|apply parent_snoc|paths_differ|done]. }
  rewrite Hfs, Hg, Hl. cbn [fst snd fs]. rewrite new_lines_app.
  rewrite Hs1 in Hn1. rewrite Hs2 in Hn2.
  split; [done|]. split.
  - rewrite postbuild_files_to_copy.
    cbn [main_firmware spiffs_filesystem Entry.source Entry.dest].
    repeat apply Forall_cons_2; [| |apply Forall_nil_2]; cbn [Entry.source Entry.dest].
    + rewrite lookup_insert_ne by paths_differ. by rewrite lookup_insert_eq.
    + by rewrite lookup_insert_eq.
  - exists (st_size n1), (st_size n2). by rewrite Hn1, Hn2.
Qed.

Lemma postbuild_both_copied_witness :
  let w := World built_tree [] in
  let build_dir := post_build_dir "/home/proj" "esp32doit-devkit-v1" in
  let firmware_dir := post_firmware_dir "/home/proj" in
  sample_env !! "PROJECT_DIR" = Some "/home/proj" ∧
  sample_env !! "PIOENV" = Some "esp32doit-devkit-v1" ∧
  build_dir ≠ firmware_dir ∧
  Forall (λ a, readable_file (fs w) (Entry.source a) = true)
    (PostBuild.files_to_copy build_dir firmware_dir) ∧
  dir_ready (fs w) firmware_dir = true ∧
  Forall (λ a, dest_ready (fs w) firmware_dir (Entry.dest a) = true)
    (PostBuild.files_to_copy build_dir firmware_dir) ∧
  (PostBuild.copy_firmware_files [] [] sample_env w).2 = Ok PyNone.
Proof.
  intros w build_dir firmware_dir.
  assert (H1 : sample_env !! "PROJECT_DIR" = Some "/home/proj") by reflexivity.
  assert (H2 : sample_env !! "PIOENV" = Some "esp32doit-devkit-v1") by reflexivity.
  assert (H3 : build_dir ≠ firmware_dir)
    by (intros Heq; vm_compute in Heq; discriminate Heq).
  assert (H4 : Forall (λ a, readable_file (fs w) (Entry.source a) = true)
                 (PostBuild.files_to_copy build_dir firmware_dir)) by check_all.
  assert (H5 : dir_ready (fs w) firmware_dir = true) by (vm_compute; reflexivity).
  assert (H6 : Forall (λ a, dest_ready (fs w) firmware_dir (Entry.dest a) = true)
                 (PostBuild.files_to_copy build_dir firmware_dir)) by check_all.
  repeat (split; [assumption|]).
  exact (proj1 (postbuild_both_copied [] [] sample_env _ _ w H1 H2 H3 H4 H5 H6)).
Defined.

Lemma loop_body_error a c w e :
  exists_in (fs w) (Entry.source a) = true →
  copy2_outcome (fs w) (Entry.source a) (Entry.dest a) = Raise e →
  Standalone.loop_body a c w
  = (World (fs w) (stdout w ++ [ErrorLine (Entry.name a) e]), Ok c).
Proof.
  intros Hex Hc. rewrite standalone_loop_body_spec.
  unfold step_fs, step_outcome. rewrite Hex, Hc. cbn [report gain].
  by rewrite Z.add_0_r.
Qed.

(** X9. A source that is there but is a directory, or a regular file the
    owner may not read, is not reported as "not found": either loop prints one
    error line naming the source ([IsADirectoryError], [PermissionError]),
    writes nothing and leaves the count as it was. *)
Theorem unusable_source_reported (a : file_info) (c : Z) (w : world) (n : node)
    (e : exn) :
  fs w !! Entry.source a = Some n →
  source_error (Entry.source a) n = Some e →
  Entry.source a ≠ Entry.dest a →
  Entry.source a ≠ os_path_join (Entry.dest a) (name (Entry.source a)) →
  let w_err := World (fs w) (stdout w ++ [ErrorLine (Entry.name a) e]) in
  Standalone.loop_body a c w = (w_err, Ok c) ∧
  PostBuild.loop_body a c w = (w_err, Ok c).
Proof.
  intros Hs He Hne1 Hne2. cbn zeta. rewrite postbuild_loop_body_eq.
  assert (Standalone.loop_body a c w
          = (World (fs w) (stdout w ++ [ErrorLine (Entry.name a) e]), Ok c)); [|done].
  apply loop_body_error; [unfold exists_in; by rewrite Hs|].
  unfold copy2_outcome. rewrite bool_decide_false, Hs.
  - destruct n as [data fm|dm]; cbn in He; [|by simplify_eq].
    destruct (can_read fm); by simplify_eq.
  - by destruct (copy2_target_cases (fs w) (Entry.source a) (Entry.dest a)) as [-> | ->].
Qed.

Lemma unusable_source_reported_witness :
  let w := World unreadable_tree [] in
  let a := firmware_bin sample_file in
  let e := PermissionError (Entry.source a) in
  fs w !! Entry.source a = Some (File firmware_image (Perm false true)) ∧
  source_error (Entry.source a) (File firmware_image (Perm false true)) = Some e ∧
  Entry.source a ≠ Entry.dest a ∧
  Entry.source a ≠ os_path_join (Entry.dest a) (name (Entry.source a)) ∧
  Standalone.loop_body a 0 w
  = (World (fs w) (stdout w ++ [ErrorLine (Entry.name a) e]), Ok 0).
Proof.
  intros w a e.
  assert (H1 : fs w !! Entry.source a = Some (File firmware_image (Perm false true)))
    by (vm_compute; reflexivity).
  assert (H2 : source_error (Entry.source a) (File firmware_image (Perm false true))
               = Some e) by reflexivity.
  assert (H3 : Entry.source a ≠ Entry.dest a)
    by (intros Heq; vm_compute in Heq; discriminate Heq).
  assert (H4 : Entry.source a ≠ os_path_join (Entry.dest a) (name (Entry.source a)))
    by (intros Heq; vm_compute in Heq; discriminate Heq).
  repeat (split; [assumption|]).
  exact (proj1 (unusable_source_reported a 0 w _ e H1 H2 H3 H4)).
Defined.

(** X10. When the destination path is a writable directory, either loop
    copies the source into it under the source's own name, counts the
    artifact as copied, and reports the size of the directory it asked
    [stat] about, not the size of the file it wrote. *)
Theorem copy_into_directory (a : file_info) (c : Z) (w : world) (data : list byte)
    (fm dm : perm) :
  fs w !! Entry.source a = Some (File data fm) →
  can_read fm = true →
  fs w !! Entry.dest a = Some (Dir dm) →
  can_write dm = true →
  name (Entry.source a) ≠ EmptyString →
  let inside := Entry.dest a ++ [name (Entry.source a)] in
  fs w !! inside = None →
  let w' := World (<[inside := File data fm]> (fs w))
              (stdout w ++ [CopiedLine (Entry.name a) (name (Entry.source a))
                              (st_size (Dir dm))]) in
  Standalone.loop_body a c w = (w', Ok (c + 1)) ∧
  PostBuild.loop_body a c w = (w', Ok (c + 1)).
Proof.
  intros Hs Hr Hd Hw Hname inside Hin. cbn zeta. rewrite postbuild_loop_body_eq.
  assert (Hj : os_path_join (Entry.dest a) (name (Entry.source a)) = inside).
  { unfold os_path_join. destruct (String.eqb_spec (name (Entry.source a)) EmptyString);
      [done|reflexivity]. }
  assert (Ht : copy2_target (fs w) (Entry.source a) (Entry.dest a) = inside).
  { unfold copy2_target, isdir_in. by rewrite Hd. }
  assert (Hne : Entry.source a ≠ inside) by (intros Heq; congruence).
  assert (Hdi : inside ≠ Entry.dest a).
  { unfold inside. apply app_neq_self. discriminate. }
  assert (Hpar : parent inside = Entry.dest a) by apply parent_snoc.
  clearbody inside.
  assert (Hc : copy2_outcome (fs w) (Entry.source a) (Entry.dest a) = Ok (File data fm)).
  { unfold copy2_outcome. rewrite Ht, bool_decide_false, Hs, Hr by done.
    unfold open_wb. by rewrite Hin, Hpar, Hd, Hw. }
  rewrite standalone_loop_body_spec. unfold step_fs, step_outcome, exists_in.
  rewrite Hs, Hc, Ht, bool_decide_false by done. done.
Qed.

Lemma copy_into_directory_witness :
  let w := World nested_tree [] in
  let a := firmware_bin sample_file in
  fs w !! Entry.source a = Some (File firmware_image rw) ∧
  can_read rw = true ∧
  fs w !! Entry.dest a = Some (Dir rw) ∧
  can_write rw = true ∧
  name (Entry.source a) ≠ EmptyString ∧
  fs w !! (Entry.dest a ++ [name (Entry.source a)]) = None ∧
  (Standalone.loop_body a 0 w).2 = Ok 1.
Proof.
  intros w a.
  assert (H1 : fs w !! Entry.source a = Some (File firmware_image rw))
    by (vm_compute; reflexivity).
  assert (H2 : can_read rw = true) by reflexivity.
  assert (H3 : fs w !! Entry.dest a = Some (Dir rw)) by (vm_compute; reflexivity).
  assert (H4 : can_write rw = true) by reflexivity.
  assert (H5 : name (Entry.source a) ≠ EmptyString)
    by (intros Heq; vm_compute in Heq; discriminate Heq).
  assert (H6 : fs w !! (Entry.dest a ++ [name (Entry.source a)]) = None)
    by (vm_compute; reflexivity).
  repeat (split; [assumption|]).
  by rewrite (proj1 (copy_into_directory a 0 w _ _ _ H1 H2 H3 H4 H5 H6)).
Defined.

Lemma order_free_of_spec body B F :
  (∀ a c w,
     body a c w =
     (World (step_fs (fs w) a) (stdout w ++ [report a (step_outcome (fs w) a)]),
      Ok (c + gain (step_outcome (fs w) a)))) →
  order_free body (PostBuild.files_to_copy B F).
Proof.
  intros Hb c w. cbn zeta. rewrite postbuild_files_to_copy.
  change (reverse [main_firmware B F; spiffs_filesystem B F])
    with [spiffs_filesystem B F; main_firmware B F].
  rewrite !(for_each_spec _ Hb). cbn [fst snd fs stdout loop_fs loop_lines loop_gain].
  rewrite !new_lines_app.
  rewrite <- (step_outcome_frame _ _ _ (main_keeps_spiffs_footprint B F (fs w))).
  rewrite <- (step_outcome_frame _ _ _ (spiffs_keeps_main_footprint B F (fs w))).
  split; [apply dirs_steps_commute|]. split; [f_equal; lia|]. split; [done|].
  cbn [flat_map]. rewrite !Hb. cbn [fst stdout]. by rewrite !new_lines_app.
Qed.

(** X11. The two artifacts do not depend on each other, in either script and
    for any build and destination directory: processed in the opposite order
    they leave the same file system and the same count and get the same
    lines, and each gets the line it would get were it processed alone. *)
Theorem artifacts_independent :
  (∀ B F, order_free Standalone.loop_body (PostBuild.files_to_copy B F)) ∧
  (∀ B F, order_free PostBuild.loop_body (PostBuild.files_to_copy B F)) ∧
  (∀ f, order_free Standalone.loop_body (Standalone.files_to_copy f)).
Proof.
  split; [|split].
  - intros B F. apply order_free_of_spec, standalone_loop_body_spec.
  - intros B F. apply order_free_of_spec, postbuild_loop_body_spec.
  - intros f. rewrite standalone_files_by_dir.
    apply order_free_of_spec, standalone_loop_body_spec.
Qed.

(** ** A second run *)

(** The same turn taken again: the same outcome, or a permission error on
    the read-only copy the first turn made. *)
Lemma step_outcome_again m a :
  step_outcome (step_fs m a) a = step_outcome m a ∨
  owner_writable m (Entry.source a) = false ∧
  gain (step_outcome m a) = 1 ∧
  gain (step_outcome (step_fs m a) a) = 0.
Proof.
  unfold step_fs at 1 2, step_outcome at 2 3.
  destruct (exists_in m (Entry.source a)) eqn:Hex; [|left; unfold step_outcome; by rewrite Hex].
  destruct (copy2_outcome m (Entry.source a) (Entry.dest a)) as [n|e] eqn:Hc;
    [|left; unfold step_outcome; by rewrite Hex, Hc].
  set (src := Entry.source a) in *. set (dst := Entry.dest a) in *.
  set (t := copy2_target m src dst) in *.
  unfold copy2_outcome in Hc. fold t in Hc.
  case_bool_decide as Hst; [done|].
  destruct (m !! src) as [[data fm|?]|] eqn:Hsrc; try done.
  destruct (can_read fm) eqn:Hr; [|done].
  destruct (open_wb m t) as [[]|] eqn:Ho; [|done]. simplify_eq.
  assert (Ht' : copy2_target (<[t := File data fm]> m) src dst = t).
  { unfold copy2_target, isdir_in.
    destruct (decide (t = dst)) as [Heq|Hne].
    - rewrite <- Heq at 1. by rewrite lookup_insert_eq.
    - by rewrite lookup_insert_ne. }
  unfold step_outcome, exists_in. rewrite lookup_insert_ne by done.
  fold src dst. rewrite Hsrc.
  unfold copy2_outcome. rewrite Ht'. fold t.
  rewrite bool_decide_false by done.
  rewrite lookup_insert_ne by done. rewrite Hsrc, Hr.
  unfold open_wb at 1. rewrite lookup_insert_eq.
  destruct (can_write fm) eqn:Hw; [left; reflexivity|right].
  unfold owner_writable. fold src. rewrite Hsrc. split; [done|]. split; [done|].
  unfold open_wb. by rewrite lookup_insert_eq, Hw.
Qed.

Lemma owner_writable_agree m m' p :
  m !! p = m' !! p → owner_writable m p = owner_writable m' p.
Proof. unfold owner_writable. by intros ->. Qed.

Lemma agree_on_source a m m' :
  agree_on (footprint a) m m' → m !! Entry.source a = m' !! Entry.source a.
Proof. unfold agree_on, footprint. cbn zeta. rewrite Forall_cons. by intros [? _]. Qed.

(** The loop run again on its own result: no more copies than the first
    time, and the very same lines when the sources are owner-writable. *)
Lemma dirs_loop_again B F m :
  let l := PostBuild.files_to_copy B F in
  loop_gain (loop_fs m l) l ≤ loop_gain m l ∧
  (Forall (λ a, owner_writable m (Entry.source a) = true) l →
   loop_lines (loop_fs m l) l = loop_lines m l ∧
   loop_gain (loop_fs m l) l = loop_gain m l).
Proof.
  cbn zeta. rewrite postbuild_files_to_copy. cbn [loop_fs loop_lines loop_gain].
  set (a1 := main_firmware B F). set (a2 := spiffs_filesystem B F).
  set (m2 := step_fs m a1). set (m3 := step_fs m2 a2).
  assert (H13 : step_fs m3 a1 = m3).
  { apply (step_fs_stable_frame m2); [apply spiffs_keeps_main_footprint|].
    apply step_fs_idem. }
  rewrite H13.
  assert (Ho1 : step_outcome m3 a1 = step_outcome m2 a1).
  { symmetry. apply step_outcome_frame, spiffs_keeps_main_footprint. }
  rewrite Ho1.
  pose proof (step_outcome_again m a1) as Hag1. fold m2 in Hag1.
  pose proof (step_outcome_again m2 a2) as Hag2. fold m3 in Hag2.
  assert (Hw2 : owner_writable m2 (Entry.source a2) = owner_writable m (Entry.source a2)).
  { symmetry. apply owner_writable_agree, agree_on_source, main_keeps_spiffs_footprint. }
  split.
  - pose proof (gain_bounds (step_outcome m a1)).
    pose proof (gain_bounds (step_outcome m2 a2)).
    destruct Hag1 as [-> | (_ & -> & ->)]; destruct Hag2 as [-> | (_ & -> & ->)]; lia.
  - rewrite !Forall_cons. intros (Hw1 & Hw2' & _). rewrite <- Hw2 in Hw2'.
    destruct Hag1 as [-> | (? & _)]; [|congruence].
    destruct Hag2 as [-> | (? & _)]; [|congruence]. done.
Qed.

(** X12. A second run of the standalone routine never copies more than the
    first did; and when every source that is a regular file is owner-writable
    (so that the copy [copy2] makes can be overwritten), the second run prints
    the very same report and returns the same count. *)
Theorem second_run_same_report (f : string) (w : world) :
  let first := Standalone.copy_firmware_files f w in
  let second := Standalone.copy_firmware_files f first.1 in
  match first.2 with
  | Ok v1 =>
      ∃ n1 n2,
        v1 = PyInt n1 ∧ second.2 = Ok (PyInt n2) ∧ n2 ≤ n1 ∧
        (Forall (λ a, owner_writable (fs w) (Entry.source a) = true)
           (Standalone.files_to_copy f) →
         n2 = n1 ∧ new_lines first.1 second.1 = new_lines w first.1)
  | Raise e => second.2 = Raise e
  end.
Proof.
  cbn zeta. rewrite (standalone_run_spec f w).
  destruct (mkdir_outcome (fs w) (Standalone.firmware_dir f)) as [m1|e] eqn:Hmk;
    cbn [fst snd]; rewrite standalone_run_spec; cbn [fs stdout]; [|by rewrite Hmk].
  rewrite standalone_files_by_dir in *.
  set (l := PostBuild.files_to_copy (Standalone.build_dir f) (Standalone.firmware_dir f)).
  rewrite (mkdir_outcome_existing (loop_fs m1 l))
    by (unfold isdir_in, l; rewrite dirs_loop_keeps_dir; by eapply mkdir_outcome_isdir).
  cbn [fst snd]. rewrite !new_lines_app.
  destruct (dirs_loop_again (Standalone.build_dir f) (Standalone.firmware_dir f) m1)
    as [Hle Hsame]. fold l in Hle, Hsame.
  do 2 eexists. split; [done|]. split; [done|]. split; [exact Hle|].
  intros Hw. destruct Hsame as [Hl Hg].
  - rewrite Forall_forall in *. intros a Ha.
    rewrite (owner_writable_agree _ (fs w)); [by apply Hw|].
    eapply mkdir_outcome_other; [done|].
    apply standalone_sources_not_dir. by rewrite standalone_files_by_dir.
  - by rewrite Hl, Hg.
Qed.

Lemma second_run_same_report_witness :
  let w := World built_tree [] in
  let first := Standalone.copy_firmware_files sample_file w in
  let second := Standalone.copy_firmware_files sample_file first.1 in
  Forall (λ a, owner_writable (fs w) (Entry.source a) = true)
    (Standalone.files_to_copy sample_file) ∧
  first.2 = Ok (PyInt 2) ∧
  second.2 = Ok (PyInt 2).
Proof.
  intros w first second.
  assert (H : Forall (λ a, owner_writable (fs w) (Entry.source a) = true)
                (Standalone.files_to_copy sample_file)) by check_all.
  assert (H1 : first.2 = Ok (PyInt 2)) by (vm_compute; reflexivity).
  split; [exact H|]. split; [exact H1|].
  pose proof (second_run_same_report sample_file w) as Hthm. cbn zeta in Hthm.
  fold first in Hthm. rewrite H1 in Hthm. fold second in Hthm.
  destruct Hthm as (n1 & n2 & [= <-] & Hs & _ & Hsame).
  destruct (Hsame H) as [-> _]. exact Hs.
Defined.

(** ** The layout of the post-build action *)

Lemma append_snoc (cur : string) c s :
  (cur +:+ String c EmptyString) +:+ s = cur +:+ String c s.
Proof.
  induction cur as [|a cur IH]; [done|].
  change (String a ((cur +:+ String c EmptyString) +:+ s) = String a (cur +:+ String c s)).
  by rewrite IH.
Qed.

Lemma split_slash_free cur s : slash_free s = true → split_slash cur s = [cur +:+ s].
Proof.
  revert cur. induction s as [|c s IH]; intros cur Hs; cbn [split_slash].
  - f_equal. induction cur as [|a cur IHc]; [done|].
    change (String a cur = String a (cur +:+ EmptyString)). by rewrite <- IHc.
  - cbn [slash_free] in Hs. apply andb_true_iff in Hs as [Hc Hs].
    apply negb_true_iff in Hc. rewrite Hc, IH by done. by rewrite append_snoc.
Qed.

Lemma Path_plain s : slash_free s = true → is_part s = true → Path s = [s].
Proof.
  intros Hs Hp. unfold Path. rewrite split_slash_free by done.
  change (EmptyString +:+ s) with s. cbn [List.filter]. by rewrite Hp.
Qed.

Lemma slash_free_not_anchored s : slash_free s = true → is_anchored s = false.
Proof.
  destruct s as [|c s]; [done|]. cbn [slash_free is_anchored].
  intros [Hc _]%andb_true_iff. by apply negb_true_iff in Hc.
Qed.

(** X13. For an environment name that is one plain component (no slash, not
    empty, not a dot), the post-build action looks for its sources in
    [PROJECT_DIR/.pio/build/PIOENV] and writes to [PROJECT_DIR/firmware], and
    these two directories differ; a name that starts with a slash instead
    replaces the project path altogether. *)
Theorem postbuild_layout (PROJECT_DIR PIOENV : string) :
  (slash_free PIOENV = true → is_part PIOENV = true →
   PostBuild.files_to_copy (post_build_dir PROJECT_DIR PIOENV)
     (post_firmware_dir PROJECT_DIR)
   = [ {| Entry.source := Path PROJECT_DIR ++ [".pio"; "build"; PIOENV; "firmware.bin"];
          Entry.dest := Path PROJECT_DIR ++ ["firmware"; "firmware.bin"];
          Entry.name := "Main firmware" |};
       {| Entry.source := Path PROJECT_DIR ++ [".pio"; "build"; PIOENV; "spiffs.bin"];
          Entry.dest := Path PROJECT_DIR ++ ["firmware"; "spiffs.bin"];
          Entry.name := "SPIFFS filesystem" |} ] ∧
   post_build_dir PROJECT_DIR PIOENV ≠ post_firmware_dir PROJECT_DIR) ∧
  (is_anchored PIOENV = true → post_build_dir PROJECT_DIR PIOENV = Path PIOENV).
Proof.
  split.
  - intros Hs Hp.
    assert (HB : post_build_dir PROJECT_DIR PIOENV
                 = Path PROJECT_DIR ++ [".pio"; "build"; PIOENV]).
    { unfold post_build_dir. unfold truediv at 1.
      rewrite (slash_free_not_anchored _ Hs), (Path_plain _ Hs Hp).
      change (Path PROJECT_DIR / ".pio" / "build")%path
        with ((Path PROJECT_DIR ++ [".pio"]) ++ ["build"]).
      by rewrite <- !app_assoc. }
    split.
    + rewrite postbuild_files_to_copy, HB. unfold main_firmware, spiffs_filesystem.
      change (post_firmware_dir PROJECT_DIR) with (Path PROJECT_DIR ++ ["firmware"]).
      by rewrite <- !app_assoc.
    + rewrite HB. change (post_firmware_dir PROJECT_DIR) with (Path PROJECT_DIR ++ ["firmware"]).
      intros H%app_inv_head. discriminate H.
  - intros Ha. unfold post_build_dir. unfold truediv at 1. by rewrite Ha.
Qed.

Lemma postbuild_layout_witness :
  slash_free "esp32doit-devkit-v1" = true ∧
  is_part "esp32doit-devkit-v1" = true ∧
  post_build_dir "/home/proj" "esp32doit-devkit-v1" ≠ post_firmware_dir "/home/proj" ∧
  is_anchored "/tmp/out" = true ∧
  post_build_dir "/home/proj" "/tmp/out" = Path "/tmp/out".
Proof.
  assert (H1 : slash_free "esp32doit-devkit-v1" = true) by reflexivity.
  assert (H2 : is_part "esp32doit-devkit-v1" = true) by reflexivity.
  assert (H3 : is_anchored "/tmp/out" = true) by reflexivity.
  split; [exact H1|]. split; [exact H2|].
  split; [exact (proj2 (proj1 (postbuild_layout "/home/proj" _) H1 H2))|].
  split; [exact H3|].
  exact (proj2 (postbuild_layout "/home/proj" _) H3).
Defined.

(** ** The second run of the standalone routine *)

(** With owner-writable sources the second run repeats the first. *)
Lemma second_run_repeats (f : string) (w : world) :
  Forall (λ a, owner_writable (fs w) (Entry.source a) = true)
    (Standalone.files_to_copy f) →
  let first := Standalone.copy_firmware_files f w in
  let second := Standalone.copy_firmware_files f first.1 in
  second.2 = first.2 ∧ new_lines first.1 second.1 = new_lines w first.1.
Proof.
  intros Hw. cbn zeta. rewrite (standalone_run_spec f w).
  destruct (mkdir_outcome (fs w) (Standalone.firmware_dir f)) as [m1|e] eqn:Hmk;
    cbn [fst snd]; rewrite standalone_run_spec; cbn [fs stdout];
    [|rewrite Hmk; cbn [fst snd]; by rewrite !new_lines_app].
  rewrite standalone_files_by_dir in *.
  set (l := PostBuild.files_to_copy (Standalone.build_dir f) (Standalone.firmware_dir f))
    in *.
  rewrite (mkdir_outcome_existing (loop_fs m1 l))
    by (unfold isdir_in, l; rewrite dirs_loop_keeps_dir; by eapply mkdir_outcome_isdir).
  cbn [fst snd]. rewrite !new_lines_app.
  destruct (dirs_loop_again (Standalone.build_dir f) (Standalone.firmware_dir f) m1)
    as [_ Hsame]. fold l in Hsame.
  destruct Hsame as [Hl Hg]; [|by rewrite Hl, Hg].
  rewrite Forall_forall in *. intros a Ha.
  rewrite (owner_writable_agree _ (fs w)); [by apply Hw|].
  eapply mkdir_outcome_other; [done|].
  apply standalone_sources_not_dir. by rewrite standalone_files_by_dir.
Qed.

(** C7, as the code has it. A second run of the standalone routine, right
    after the first and on the sources the first run found and left as they
    were, leaves the file system, destination contents included, exactly as
    the first run left it; it returns whenever the first returned and reports
    no "file exists" error, and [mkdir] on a directory that is there succeeds
    without touching anything.  The run as a whole is idempotent when every
    source that is a regular file is owner-writable: the second run then
    prints the same report, returns the same count and gives the same exit
    status as the first, so nothing in it comes from the destinations being
    there already.  ([copy2] gives the copy the mode of its source; the copy
    of a read-only source cannot be overwritten.) *)
Theorem second_run_idempotent (f : string) (w : world) :
  let first := Standalone.copy_firmware_files f w in
  let second := Standalone.copy_firmware_files f first.1 in
  (∀ a, a ∈ Standalone.files_to_copy f →
        fs first.1 !! Entry.source a = fs w !! Entry.source a) ∧
  fs second.1 = fs first.1 ∧
  match first.2 with
  | Ok _ => ∃ n, second.2 = Ok (PyInt n)
  | Raise e => second.2 = Raise e
  end ∧
  (∀ file_name p,
     ErrorLine file_name (FileExistsError p) ∉ new_lines first.1 second.1) ∧
  (∀ p w0, isdir_in (fs w0) p = true → Path_mkdir p true w0 = (w0, Ok tt)) ∧
  (Forall (λ a, owner_writable (fs w) (Entry.source a) = true)
     (Standalone.files_to_copy f) →
   second.2 = first.2 ∧
   new_lines first.1 second.1 = new_lines w first.1 ∧
   exit_status (Standalone.main f first.1).2 = exit_status (Standalone.main f w).2).
Proof.
  cbn zeta.
  pose proof (second_run_same_fs f w) as (Hsrc & Hfs & Hret & Hnoex & Hmk).
  repeat (split; [assumption|]).
  intros Hw. destruct (second_run_repeats f w Hw) as [Hres Hrep].
  split; [exact Hres|]. split; [exact Hrep|].
  rewrite !standalone_main_spec.
  destruct (Standalone.copy_firmware_files f w) as [w1 r1].
  cbn [fst snd] in *.
  destruct (Standalone.copy_firmware_files f w1) as [w2 r2].
  cbn [snd] in Hres. subst r2. by destruct r1.
Qed.

Lemma second_run_idempotent_witness :
  let w := World built_tree [] in
  let first := Standalone.copy_firmware_files sample_file w in
  let second := Standalone.copy_firmware_files sample_file first.1 in
  Forall (λ a, owner_writable (fs w) (Entry.source a) = true)
    (Standalone.files_to_copy sample_file) ∧
  fs second.1 = fs first.1 ∧
  second.2 = first.2 ∧
  new_lines first.1 second.1 = new_lines w first.1 ∧
  isdir_in (fs w) sample_project = true ∧
  Path_mkdir sample_project true w = (w, Ok tt).
Proof.
  intros w first second.
  assert (Hw : Forall (λ a, owner_writable (fs w) (Entry.source a) = true)
                 (Standalone.files_to_copy sample_file)) by check_all.
  assert (Hd : isdir_in (fs w) sample_project = true) by (vm_compute; reflexivity).
  pose proof (second_run_idempotent sample_file w) as (_ & Hfs & _ & _ & Hmk & Hsame).
  destruct (Hsame Hw) as (Hres & Hrep & _).
  split; [exact Hw|]. split; [exact Hfs|]. split; [exact Hres|]. split; [exact Hrep|].
  split; [exact Hd|]. exact (Hmk sample_project w Hd).
Defined.

(** C7, as stated, fails: with both sources read-only the first run copies
    both and makes read-only copies; the second run, on the same sources,
    gets a permission error on each copy that is now there, copies nothing,
    returns 0 instead of 2, and the exit status goes from 0 to 1. *)
Lemma read_only_sources_second_run :
  let w := World read_only_tree [] in
  let first := Standalone.copy_firmware_files sample_file w in
  let second := Standalone.copy_firmware_files sample_file first.1 in
  Forall (λ a, fs first.1 !! Entry.source a = fs w !! Entry.source a)
    (Standalone.files_to_copy sample_file) ∧
  first.2 = Ok (PyInt 2) ∧
  second.2 = Ok (PyInt 0) ∧
  new_lines first.1 second.1 =
    [Rule; CopyingLine;
     ErrorLine "Main firmware"
       (PermissionError (sample_project ++ ["firmware"; "firmware.bin"]));
     ErrorLine "SPIFFS filesystem"
       (PermissionError (sample_project ++ ["firmware"; "spiffs.bin"]));
     NoFilesLine; Rule] ∧
  exit_status (Standalone.main sample_file w).2 = 0 ∧
  exit_status (Standalone.main sample_file first.1).2 = 1 ∧
  second.2 ≠ first.2.
Proof.
  cbn zeta. split; [check_all|].
  repeat (split; [by vm_compute|]).
  intros H. vm_compute in H. discriminate H.
Qed.
